(** * Prevalence Estimator Data Export: input and output processing

    A shallow embedding of [src/scripts/input_processing.py] and
    [src/scripts/output_processing.py].

    The scripts work on decoded JSON documents (Python [dict], [list], [str],
    [int], [float], [bool], [None]), mutate the sample dictionaries in place,
    and report through three side channels: the narrative report
    [info.html], the execution log and the attachment manifest
    [attachments.json].  Decoded values are modelled by the inductive type
    [json]; a Python [dict] is an association list in insertion order (the
    order decides the columns of [params.csv]); in-place mutation is explicit
    state passing; Python exceptions are the [Raise] outcomes of a small error
    monad, and the scripts themselves run in a state-and-error monad over the
    files they write. *)

From Stdlib Require Import String Ascii List ZArith QArith_base Bool Lia Permutation.
Import ListNotations.
Local Close Scope Q_scope.
Local Open Scope string_scope.

Set Implicit Arguments.
Set Warnings "-register-all".

(** ** Decoded JSON values *)

Inductive json : Type :=
| JNull
| JBool (b : bool)
| JInt (z : Z)
| JFloat (q : Q)
| JStr (s : string)
| JArr (items : list json)
| JObj (members : list (string * json)).

(** A Python [dict] with string keys, in insertion order. *)
Definition dict : Type := list (string * json).

(** ** Python exceptions and the error monad *)

Inductive exn : Type :=
| KeyError
| TypeError
| ValueError
| IndexError
| FileNotFoundError
| JSONDecodeError
| PandasError
| UnicodeEncodeError
| SystemExit (status : Z).

Definition exn_eqb (a b : exn) : bool :=
  match a, b with
  | KeyError, KeyError | TypeError, TypeError | ValueError, ValueError
  | IndexError, IndexError | FileNotFoundError, FileNotFoundError
  | JSONDecodeError, JSONDecodeError | PandasError, PandasError
  | UnicodeEncodeError, UnicodeEncodeError => true
  | SystemExit m, SystemExit n => Z.eqb m n
  | _, _ => false
  end.

Inductive result (A : Type) : Type :=
| Ok (a : A)
| Raise (e : exn).

Arguments Ok {A} a.
Arguments Raise {A} e.

Definition bind {A B : Type} (r : result A) (k : A -> result B) : result B :=
  match r with
  | Ok a => k a
  | Raise e => Raise e
  end.

Declare Scope py_scope.
Delimit Scope py_scope with py.
Notation "x <- r ;; k" := (bind r (fun x => k))
  (at level 100, r at next level, right associativity) : py_scope.
Local Open Scope py_scope.

(** [try: body  except (caught...): handler] *)
Definition try_except {A : Type} (body : result A) (caught : list exn)
    (handler : result A) : result A :=
  match body with
  | Ok a => Ok a
  | Raise e => if existsb (exn_eqb e) caught then handler else Raise e
  end.

(** ** Dictionary operations *)

Fixpoint dict_get (d : dict) (key : string) : option json :=
  match d with
  | [] => None
  | (k, v) :: rest => if String.eqb k key then Some v else dict_get rest key
  end.

(** [key in d] *)
Definition dict_has (d : dict) (key : string) : bool :=
  match dict_get d key with
  | Some _ => true
  | None => false
  end.

(** [d[key] = value]: an existing key keeps its position, a new key goes last. *)
Fixpoint dict_set (d : dict) (key : string) (value : json) : dict :=
  match d with
  | [] => [(key, value)]
  | (k, v) :: rest =>
      if String.eqb k key then (k, value) :: rest
      else (k, v) :: dict_set rest key value
  end.

(** [d.keys()] *)
Definition dict_keys (d : dict) : list string := map fst d.

(** [del d[key]] *)
Definition dict_del (d : dict) (key : string) : result dict :=
  if dict_has d key
  then Ok (filter (fun kv => negb (String.eqb (fst kv) key)) d)
  else Raise KeyError.

(** ** Python built-ins on decoded values *)

(** [needle in hay] for two strings. *)
Fixpoint is_substring (needle hay : string) : bool :=
  String.prefix needle hay
  || match hay with
     | EmptyString => false
     | String _ rest => is_substring needle rest
     end.

Definition is_str (key : string) (v : json) : bool :=
  match v with
  | JStr s => String.eqb s key
  | _ => false
  end.

(** [container[key]] with a string subscript. *)
Definition py_getitem (container : json) (key : string) : result json :=
  match container with
  | JObj d =>
      match dict_get d key with
      | Some v => Ok v
      | None => Raise KeyError
      end
  | _ => Raise TypeError
  end.

(** [key in container] with a string on the left. *)
Definition py_contains (key : string) (container : json) : result bool :=
  match container with
  | JObj d => Ok (dict_has d key)
  | JArr l => Ok (existsb (is_str key) l)
  | JStr s => Ok (is_substring key s)
  | _ => Raise TypeError
  end.

(** [len(v)].  A string is counted in bytes here and in code points by
    Python; the script only asks whether the length is positive. *)
Definition py_len (v : json) : result nat :=
  match v with
  | JArr l => Ok (List.length l)
  | JObj d => Ok (List.length d)
  | JStr s => Ok (String.length s)
  | _ => Raise TypeError
  end.

Fixpoint str_chars (s : string) : list json :=
  match s with
  | EmptyString => []
  | String c rest => JStr (String c EmptyString) :: str_chars rest
  end.

(** The items [for x in v] visits: the elements of a list, the keys of a
    dict, the characters of a string. *)
Definition py_iter (v : json) : result (list json) :=
  match v with
  | JArr l => Ok l
  | JObj d => Ok (map (fun kv => JStr (fst kv)) d)
  | JStr s => Ok (str_chars s)
  | _ => Raise TypeError
  end.

(** [v == True]: [True] itself and the numbers equal to one. *)
Definition py_eq_True (v : json) : bool :=
  match v with
  | JBool b => b
  | JInt z => Z.eqb z 1
  | JFloat q => Qeq_bool q (1 # 1)%Q
  | _ => false
  end.

(** A list comprehension [[x for x in l if p x]] whose test may raise. *)
Fixpoint filter_raising {A : Type} (p : A -> result bool) (l : list A)
    : result (list A) :=
  match l with
  | [] => Ok []
  | x :: rest =>
      b <- p x ;;
      kept <- filter_raising p rest ;;
      Ok (if b then x :: kept else kept)
  end.

(** A [for] loop that rebinds each element, stopping at the first exception. *)
Fixpoint map_raising {A B : Type} (f : A -> result B) (l : list A)
    : result (list B) :=
  match l with
  | [] => Ok []
  | x :: rest =>
      y <- f x ;;
      ys <- map_raising f rest ;;
      Ok (y :: ys)
  end.

(** ** The sample loop of [input_processing.py] *)

Definition needed_keys_with_defaults : dict :=
  [ ("id", JNull);
    ("sub_administrative_area_id", JNull);
    ("species", JNull);
    ("age_group", JNull);
    ("sex", JNull);
    ("sample_source", JNull);
    ("result", JNull) ].

Fixpoint add_missing_defaults_inplace (original_dict default_values : dict)
    : dict :=
  match default_values with
  | [] => original_dict
  | (key, value) :: rest =>
      add_missing_defaults_inplace
        (if negb (dict_has original_dict key)
         then dict_set original_dict key value
         else original_dict)
        rest
  end.

(** [try: sample['id'] = sample['_id']  except KeyError: pass] *)
Definition set_id (sample : dict) : result dict :=
  try_except
    (v <- py_getitem (JObj sample) "_id" ;;
     Ok (dict_set sample "id" v))
    [KeyError]
    (Ok sample).

(** [try: sample["sub_administrative_area_id"] =
          sample['_sub_administrative_area']['_id']
     except (KeyError, TypeError): pass] *)
Definition set_sub_administrative_area_id (sample : dict) : result dict :=
  try_except
    (area <- py_getitem (JObj sample) "_sub_administrative_area" ;;
     v <- py_getitem area "_id" ;;
     Ok (dict_set sample "sub_administrative_area_id" v))
    [KeyError; TypeError]
    (Ok sample).

(** The filter of the comprehension:
    ["selected_definitive" in test and test["selected_definitive"] == True]. *)
Definition is_selected_definitive (test : json) : result bool :=
  present <- py_contains "selected_definitive" test ;;
  if present
  then v <- py_getitem test "selected_definitive" ;; Ok (py_eq_True v)
  else Ok false.

Definition set_result (sample : dict) : result dict :=
  if dict_has sample "tests" then
    tests <- py_getitem (JObj sample) "tests" ;;
    n <- py_len tests ;;
    if Nat.ltb 0 n then
      items <- py_iter tests ;;
      tests_selected_definitive <- filter_raising is_selected_definitive items ;;
      if Nat.eqb (List.length tests_selected_definitive) 1 then
        try_except
          (first <- match tests_selected_definitive with
                    | t :: _ => Ok t
                    | [] => Raise IndexError
                    end ;;
           r <- py_getitem first "result" ;;
           Ok (dict_set sample "result" r))
          [KeyError; TypeError; ValueError]
          (Ok sample)
      else Ok (dict_set sample "result" JNull)
    else Ok (dict_set sample "result" JNull)
  else Ok (dict_set sample "result" JNull).

(** The body of [for sample in samples]; a sample is a mapping, one decoded
    line of [sample.ndJson]. *)
Definition normalize_sample (sample : dict) : result dict :=
  let sample := add_missing_defaults_inplace sample needed_keys_with_defaults in
  sample <- set_id sample ;;
  sample <- set_sub_administrative_area_id sample ;;
  set_result sample.

Definition normalize_samples (samples : list dict) : result (list dict) :=
  map_raising normalize_sample samples.

(** ** [csv.DictWriter]

    The writer is the standard library's; only what the scripts use is
    modelled: the header row, and the row [_dict_to_list] builds from a
    dictionary, cell by cell in the order of [fieldnames].  A file is the list
    of its rows, each row the list of its cells before they are rendered as
    text ([QUOTE_NONNUMERIC] decides the quoting of the rendering only). *)

Inductive extras : Type := ExtrasRaise | ExtrasIgnore.

Record DictWriter : Type := mkDictWriter {
  fieldnames : list string;
  extrasaction : extras;
  restval : json
}.

Definition table : Type := list (list json).

Definition writeheader (w : DictWriter) : list json :=
  map JStr (fieldnames w).

Definition wrong_fields (w : DictWriter) (rowdict : dict) : list string :=
  filter (fun k => negb (existsb (String.eqb k) (fieldnames w)))
         (dict_keys rowdict).

(** [rowdict.get(key, self.restval)] *)
Definition cell (w : DictWriter) (rowdict : dict) (key : string) : json :=
  match dict_get rowdict key with
  | Some v => v
  | None => restval w
  end.

Definition dict_to_list (w : DictWriter) (rowdict : dict) : result (list json) :=
  match extrasaction w, wrong_fields w rowdict with
  | ExtrasRaise, _ :: _ => Raise ValueError
  | _, _ => Ok (map (cell w rowdict) (fieldnames w))
  end.

(** The rows [writer.writeheader(); writer.writerows(rows)] hand to the
    file, in order; what the file keeps of them is [write_csv_file]'s. *)
Definition write_csv (w : DictWriter) (rows : list dict) : result table :=
  body <- map_raising (dict_to_list w) rows ;;
  Ok (writeheader w :: body).

Definition sample_writer : DictWriter :=
  mkDictWriter
    [ "id"; "sub_administrative_area_id"; "species"; "age_group"; "sex";
      "sample_source"; "result" ]
    ExtrasIgnore (JStr "").

Definition sub_administrative_area_writer : DictWriter :=
  mkDictWriter [ "id"; "full_name" ] ExtrasIgnore (JStr "").

Definition params_writer (params : dict) : DictWriter :=
  mkDictWriter (dict_keys params) ExtrasIgnore (JStr "").

(** ** The codec of the files

    [open(path, 'w')] and [open(path, 'a')] take the platform's codec with
    strict error handling: UTF-8 in the Linux image the scripts are written
    for.  A Python [str] is kept here as the bytes UTF-8 gives its code
    points, and a lone surrogate (what an escape such as backslash-ud800 of
    a JSON document decodes to) as the three bytes the same scheme would
    give it; [utf8_encodable] tells the strings the strict codec accepts,
    so a string with a lone surrogate is refused. *)

Definition between (lo hi : nat) (c : ascii) : bool :=
  Nat.leb lo (nat_of_ascii c) && Nat.leb (nat_of_ascii c) hi.

Definition continuation (c : ascii) : bool := between 128 191 c.

Fixpoint utf8_encodable (s : string) : bool :=
  match s with
  | EmptyString => true
  | String c0 r0 =>
      if between 0 127 c0 then utf8_encodable r0
      else if between 194 223 c0 then
        match r0 with
        | String c1 r1 => continuation c1 && utf8_encodable r1
        | _ => false
        end
      else if between 224 239 c0 then
        match r0 with
        | String c1 (String c2 r2) =>
            (if between 224 224 c0 then between 160 191 c1
             else if between 237 237 c0 then between 128 159 c1
             else continuation c1)
            && continuation c2 && utf8_encodable r2
        | _ => false
        end
      else if between 240 244 c0 then
        match r0 with
        | String c1 (String c2 (String c3 r3)) =>
            (if between 240 240 c0 then between 144 191 c1
             else if between 244 244 c0 then between 128 143 c1
             else continuation c1)
            && continuation c2 && continuation c3 && utf8_encodable r3
        | _ => false
        end
      else false
  end.

(** The text the csv writer makes of a cell is the string itself for a
    string; for every other value it is [str(value)], digits for a number
    and a [repr] that escapes what is not printable for a list or a
    dictionary, which the codec always accepts. *)
Definition cell_encodable (v : json) : bool :=
  match v with
  | JStr s => utf8_encodable s
  | _ => true
  end.

Definition row_encodable (row : list json) : bool := forallb cell_encodable row.

(** The rows that reach a file: the writer hands the file one row at a time
    and the file encodes it at once, so the file keeps the rows before the
    first one the codec refuses, and that row raises. *)
Fixpoint encode_rows (rows : table) : table * option exn :=
  match rows with
  | [] => ([], None)
  | row :: rest =>
      if row_encodable row
      then (row :: fst (encode_rows rest), snd (encode_rows rest))
      else ([], Some UnicodeEncodeError)
  end.

(** ** The files the scripts read and write *)

(** What opening and decoding an input file gives. *)
Inductive file_state (A : Type) : Type :=
| Missing
| Unparseable
| Parsed (content : A).

Arguments Missing {A}.
Arguments Unparseable {A}.
Arguments Parsed {A} content.

(** A record of the execution log; the time stamp the format puts in front
    of each record is left out. *)
Inductive log_record : Type :=
| LogInfo (message : string)
| LogError (message : string)
| LogUncaught (e : exn).

(** A pandas [DataFrame]: its column labels and its rows. *)
Record DataFrame : Type := mkDataFrame {
  columns : list string;
  frame_rows : list (list json)
}.

(** A workbook written by [DataFrame.to_excel]. *)
Record workbook : Type := mkWorkbook {
  sheet_name : string;
  index : bool;
  sheet : DataFrame
}.

Record world : Type := mkWorld {
  attachments_json : file_state json;
  info_html : list string;
  execution_log : list log_record;
  params_csv : option table;
  sample_csv : option table;
  sub_administrative_area_csv : option table;
  PrevalenceEstimatorData_xlsx : option workbook
}.

Definition with_attachments_json (f : file_state json) (w : world) : world :=
  mkWorld f (info_html w) (execution_log w) (params_csv w) (sample_csv w)
          (sub_administrative_area_csv w) (PrevalenceEstimatorData_xlsx w).

Definition with_info_html (h : list string) (w : world) : world :=
  mkWorld (attachments_json w) h (execution_log w) (params_csv w)
          (sample_csv w) (sub_administrative_area_csv w)
          (PrevalenceEstimatorData_xlsx w).

Definition with_execution_log (l : list log_record) (w : world) : world :=
  mkWorld (attachments_json w) (info_html w) l (params_csv w) (sample_csv w)
          (sub_administrative_area_csv w) (PrevalenceEstimatorData_xlsx w).

Definition with_params_csv (t : table) (w : world) : world :=
  mkWorld (attachments_json w) (info_html w) (execution_log w) (Some t)
          (sample_csv w) (sub_administrative_area_csv w)
          (PrevalenceEstimatorData_xlsx w).

Definition with_sample_csv (t : table) (w : world) : world :=
  mkWorld (attachments_json w) (info_html w) (execution_log w) (params_csv w)
          (Some t) (sub_administrative_area_csv w)
          (PrevalenceEstimatorData_xlsx w).

Definition with_sub_administrative_area_csv (t : table) (w : world) : world :=
  mkWorld (attachments_json w) (info_html w) (execution_log w) (params_csv w)
          (sample_csv w) (Some t) (PrevalenceEstimatorData_xlsx w).

Definition with_xlsx (b : workbook) (w : world) : world :=
  mkWorld (attachments_json w) (info_html w) (execution_log w) (params_csv w)
          (sample_csv w) (sub_administrative_area_csv w) (Some b).

(** ** The monad of a script: the files, and an exception or a value *)

Definition script (A : Type) : Type := world -> result A * world.

Definition ret {A : Type} (a : A) : script A := fun w => (Ok a, w).

Definition sbind {A B : Type} (m : script A) (k : A -> script B) : script B :=
  fun w =>
    match m w with
    | (Ok a, w') => k a w'
    | (Raise e, w') => (Raise e, w')
    end.

Definition lift {A : Type} (r : result A) : script A := fun w => (r, w).

Definition modify (f : world -> world) : script unit := fun w => (Ok tt, f w).

Declare Scope script_scope.
Delimit Scope script_scope with script.
Notation "x <- m ;; k" := (sbind m (fun x => k))
  (at level 100, m at next level, right associativity) : script_scope.
Notation "m ;;; k" := (sbind m (fun _ => k))
  (at level 100, right associativity) : script_scope.

(** [sys.exit(status)] *)
Definition sys_exit {A : Type} (status : Z) : script A :=
  lift (Raise (SystemExit status)).

(** [sys.excepthook] of both scripts: the exception goes to the log. *)
Definition handle_uncaught_exception (e : exn) (w : world) : world :=
  with_execution_log (execution_log w ++ [LogUncaught e])%list w.

(** What the interpreter does with a finished script: status 0; the status of
    a [SystemExit]; for any other exception the hook, and status 1. *)
Definition run (main : script unit) (w : world) : Z * world :=
  match main w with
  | (Ok _, w') => (0%Z, w')
  | (Raise (SystemExit status), w') => (status, w')
  | (Raise e, w') => (1%Z, handle_uncaught_exception e w')
  end.

(** ** Functions shared by the two scripts *)

Definition html_line (line html_element : string) : string :=
  "<" ++ html_element ++ ">" ++ line ++ "</" ++ html_element ++ ">".

(** Appends one line to [info.html]. *)
Definition model_log_html (line html_element : string) : script unit :=
  modify (fun w => with_info_html (info_html w ++ [html_line line html_element])%list w).

(** [model_log_html] on a line that carries text of the input: [f.write]
    raises, and appends nothing, when the codec refuses the line.  Every
    other line of the scripts is fixed text, the digits of the clock or
    those of a count. *)
Definition model_log_html_text (line html_element : string) : script unit :=
  if utf8_encodable (html_line line html_element)
  then model_log_html line html_element
  else lift (Raise UnicodeEncodeError).

(** [with open(path, 'w', newline='') as f: writer.writeheader();
    writer.writerows(rows)]: [store] is the file; it keeps the rows the
    codec took, and the row it refused ends the block with its exception. *)
Definition write_csv_file (store : table -> world -> world) (w : DictWriter)
    (rows : list dict) : script unit :=
  sbind (lift (write_csv w rows)) (fun tbl =>
  sbind (modify (store (fst (encode_rows tbl)))) (fun _ =>
  match snd (encode_rows tbl) with
  | Some e => lift (Raise e)
  | None => ret tt
  end)).

Definition logging_info (message : string) : script unit :=
  modify (fun w => with_execution_log (execution_log w ++ [LogInfo message])%list w).

Definition logging_error (message : string) : script unit :=
  modify (fun w => with_execution_log (execution_log w ++ [LogError message])%list w).

(** Reads the manifest, appends the item and writes it back; each failure is
    printed and raised again. *)
Definition add_item_to_json_file_list (new_item : json) : script unit :=
  fun w =>
    match attachments_json w with
    | Missing => (Raise FileNotFoundError, w)
    | Unparseable => (Raise JSONDecodeError, w)
    | Parsed (JArr data) =>
        (Ok tt, with_attachments_json (Parsed (JArr (data ++ [new_item])%list)) w)
    | Parsed _ => (Raise ValueError, w)
    end.

Definition attachment (filename content_type role : string) : json :=
  JObj [ ("filename", JStr filename);
         ("content_type", JStr content_type);
         ("role", JStr role) ].

(** ** [input_processing.py] *)

(** ['literal' + v]: concatenation is defined between strings only. *)
Definition str_concat (prefix : string) (v : json) : result string :=
  match v with
  | JStr s => Ok (prefix ++ s)
  | _ => Raise TypeError
  end.

(** The sub-area loop:
    [try: subadmin['id'] = subadmin['_id']  except (KeyError, TypeError): pass] *)
Definition set_subadmin_id (subadmin : dict) : result dict :=
  try_except
    (v <- py_getitem (JObj subadmin) "_id" ;;
     Ok (dict_set subadmin "id" v))
    [KeyError; TypeError]
    (Ok subadmin).

Section InputProcessing.

(** Python's formatting of a value inside an f-string, and the two readings
    of the clock, come from outside the script. *)
Variable py_str : json -> string.
Variables now_html now_log : string.

(** [dict_to_html_list] with the default [list_type='unordered']: the
    helper's text for a value of a dictionary. *)
Fixpoint dict_to_html_value (value : json) : string :=
  match value with
  | JObj data =>
      "<ul>"
      ++ (fix items (d : list (string * json)) : string :=
            match d with
            | [] => ""
            | (key, v) :: rest =>
                "<li>" ++ key ++ ": " ++ dict_to_html_value v ++ "</li>"
                ++ items rest
            end) data
      ++ "</ul>"
  | JArr l =>
      "<ul>"
      ++ String.concat "" (map (fun item => "<li>" ++ py_str item ++ "</li>") l)
      ++ "</ul>"
  | _ => py_str value
  end.

Definition dict_to_html_list (data : dict) : string :=
  dict_to_html_value (JObj data).

Local Open Scope script_scope.

(** "SETUP FILE STRUCTURE", "SETUP LOGGING" and the head of the report. *)
Definition setup : script unit :=
  modify (with_attachments_json (Parsed (JArr []))) ;;;
  add_item_to_json_file_list
    (attachment "execution_log.log" "text/plain" "downloadable") ;;;
  add_item_to_json_file_list
    (attachment "info.html" "text/html" "feedback") ;;;
  modify (with_execution_log []) ;;;
  modify (with_info_html []) ;;;
  model_log_html "Model Execution Summary" "h3" ;;;
  model_log_html "Model: Prevalence Estimator Data Export" "p" ;;;
  model_log_html ("Date: " ++ now_html ++ " GMT") "p" ;;;
  logging_info "Model: Prevalence Estimator Data Export" ;;;
  logging_info ("Date: " ++ now_log ++ " GMT") ;;;
  logging_info
    "This log records data for debugging purposes in the case of a model execution error.".

(** "Get model parameters file" *)
Definition load_parameters (params_json : file_state json) : script json :=
  match params_json with
  | Parsed params =>
      logging_info "Parameter file loaded successfully" ;;;
      ret params
  | _ =>
      logging_error "params.json File does not exist." ;;;
      model_log_html "ERROR" "h4" ;;;
      model_log_html "Parameters (params.json) file not found." "p" ;;;
      sys_exit 1
  end.

(** [params['_provider']['_administrative_area']['administrative_area']] *)
Definition provider_admin_area_of (params : json) : result json :=
  (provider <- py_getitem params "_provider" ;;
   area <- py_getitem provider "_administrative_area" ;;
   py_getitem area "administrative_area")%py.

(** [del(params['_provider'])] *)
Definition del_provider (params : json) : result dict :=
  match params with
  | JObj d => dict_del d "_provider"
  | _ => Raise TypeError
  end.

(** "Process Parameters" *)
Definition process_parameters (params_json : file_state json) : script unit :=
  params <- load_parameters params_json ;;
  provider_admin_area <- lift (provider_admin_area_of params) ;;
  params <- lift (del_provider params) ;;
  write_csv_file with_params_csv (params_writer params) [params] ;;;
  line <- lift (str_concat "Provider area: " provider_admin_area) ;;
  model_log_html_text line "p" ;;;
  model_log_html "User provided parameters:" "h4" ;;;
  model_log_html_text (dict_to_html_list params) "p".

Definition load_samples (sample_ndjson : file_state (list dict))
    : script (list dict) :=
  match sample_ndjson with
  | Parsed samples =>
      logging_info "Sample file loaded successfully" ;;;
      ret samples
  | _ =>
      logging_error "samples.ndjson file does not exist." ;;;
      model_log_html "ERROR" "h4" ;;;
      model_log_html
        "Samples (sample.ndjson) file not found. Sample data are required to run this model. Execution halted."
        "p" ;;;
      sys_exit 1
  end.

(** "Process Samples" *)
Definition process_samples (sample_ndjson : file_state (list dict))
    : script unit :=
  samples <- load_samples sample_ndjson ;;
  model_log_html "Warehouse data provided to model" "h4" ;;;
  model_log_html
    ("Samples: " ++ py_str (JInt (Z.of_nat (List.length samples)))) "p" ;;;
  samples <- lift (normalize_samples samples) ;;
  write_csv_file with_sample_csv sample_writer samples.

Definition load_subadmins (sub_administrative_area_ndjson : file_state (list dict))
    : script (list dict) :=
  match sub_administrative_area_ndjson with
  | Parsed subadmins =>
      logging_info "Sub-administrative area file loaded successfully" ;;;
      ret subadmins
  | _ =>
      logging_error "sub_administrative_area.json File does not exist." ;;;
      model_log_html "ERROR" "h4" ;;;
      model_log_html
        "Sub-administrative areas (sub_administrative_area.json) file not found."
        "p" ;;;
      sys_exit 1
  end.

(** "Process Sub-administrative areas" *)
Definition process_subadmins
    (sub_administrative_area_ndjson : file_state (list dict)) : script unit :=
  subadmins <- load_subadmins sub_administrative_area_ndjson ;;
  subadmins <- lift (map_raising set_subadmin_id subadmins) ;;
  write_csv_file with_sub_administrative_area_csv
    sub_administrative_area_writer subadmins ;;;
  logging_info "Model input processing successfully completed.".

(** The whole script, top to bottom. *)
Definition input_processing (params_json : file_state json)
    (sample_ndjson sub_administrative_area_ndjson : file_state (list dict))
    : script unit :=
  setup ;;;
  process_parameters params_json ;;;
  process_samples sample_ndjson ;;;
  process_subadmins sub_administrative_area_ndjson.

End InputProcessing.

(** ** [output_processing.py] *)

Section OutputProcessing.

(** [pandas.read_csv] on the text of a file: a frame, or [None] when pandas
    raises because the text is not a table. *)
Variable pd_read_csv : string -> option DataFrame.

Local Open Scope script_scope.

(** [pd.read_csv(model_output_csv)] on a path that may not exist. *)
Definition read_model_output (SpeedGoatOutputMatrix_csv : option string)
    : result DataFrame :=
  match SpeedGoatOutputMatrix_csv with
  | None => Raise FileNotFoundError
  | Some text =>
      match pd_read_csv text with
      | Some df => Ok df
      | None => Raise PandasError
      end
  end.

(** [try: body  except Exception as e: handler]; [SystemExit] is not an
    [Exception]. *)
Definition except_Exception {A : Type} (body : result A) (handler : script A)
    : script A :=
  match body with
  | Ok a => ret a
  | Raise (SystemExit status) => sys_exit status
  | Raise _ => handler
  end.

Definition output_processing (SpeedGoatOutputMatrix_csv : option string)
    : script unit :=
  model_log_html "Model Exports" "h3" ;;;
  df <- except_Exception (read_model_output SpeedGoatOutputMatrix_csv)
          (model_log_html "ERROR" "h4" ;;;
           model_log_html
             "SpeedGoatOutputMatrix.csv not found or could not be imported by Pandas."
             "p" ;;;
           logging_error
             "SpeedGoatOutputMatrix.csv not found or could not be imported by Pandas." ;;;
           sys_exit 1) ;;
  modify (with_xlsx (mkWorkbook "Data" false df)) ;;;
  add_item_to_json_file_list
    (attachment "PrevalenceEstimatorData.xlsx"
       "application/vnd.openxmlformats-officedocument.spreadsheetml.sheet"
       "downloadable") ;;;
  model_log_html "Model exports successfully created." "p" ;;;
  logging_info "Model output processing successfully completed.".

End OutputProcessing.

(** ** Notions the properties are stated with *)

(** The seven canonical fields of a sample record. *)
Definition canonical_fields : list string :=
  [ "id"; "sub_administrative_area_id"; "species"; "age_group"; "sex";
    "sample_source"; "result" ].

Definition is_mapping (v : json) : bool :=
  match v with
  | JObj _ => true
  | _ => false
  end.

(** A test entry whose [selected_definitive] field is present and equal to
    true, equality being the script's [== True]. *)
Definition definitive (test : json) : bool :=
  match test with
  | JObj d =>
      match dict_get d "selected_definitive" with
      | Some v => py_eq_True v
      | None => false
      end
  | _ => false
  end.

(** The [tests] value of a record, when present, is a sequence of mappings. *)
Definition tests_well_formed (sample : dict) : bool :=
  match dict_get sample "tests" with
  | None => true
  | Some (JArr tests) => forallb is_mapping tests
  | Some _ => false
  end.

(** The record has no [tests] field, or an empty [tests] sequence, or a
    sequence of test entries of which none or several are definitive. *)
Definition no_single_definitive (sample : dict) : Prop :=
  match dict_get sample "tests" with
  | None => True
  | Some (JArr tests) =>
      forallb is_mapping tests = true
      /\ List.length (filter definitive tests) <> 1
  | Some _ => False
  end.

(** The value of a field of the input record, null when the field is absent. *)
Definition field_or_null (d : dict) (key : string) : json :=
  match dict_get d key with
  | Some v => v
  | None => JNull
  end.

(** The [_id] of a nested [_sub_administrative_area] object. *)
Definition nested_area_id (sample : dict) : option json :=
  match dict_get sample "_sub_administrative_area" with
  | Some (JObj area) => dict_get area "_id"
  | _ => None
  end.

(** The administrative area under [_provider], when the whole path exists. *)
Definition provider_path (params : json) : option json :=
  match params with
  | JObj d =>
      match dict_get d "_provider" with
      | Some (JObj provider) =>
          match dict_get provider "_administrative_area" with
          | Some (JObj area) => dict_get area "administrative_area"
          | _ => None
          end
      | _ => None
      end
  | _ => None
  end.


(** Normalizing then tabulating, as "Process Samples" chains them. *)
Definition tabulate_samples (samples : list dict) : result table :=
  normalized <- normalize_samples samples ;;
  tbl <- write_csv sample_writer normalized ;;
  match snd (encode_rows tbl) with
  | Some e => Raise e
  | None => Ok (fst (encode_rows tbl))
  end.

(** The sample whose only definitive test carries no [result], while the
    record itself arrives with one. *)
Definition stale_result_sample : dict :=
  [ ("result", JStr "Detected");
    ("tests", JArr [ JObj [ ("selected_definitive", JBool true) ] ]) ].

(** The error headings of the narrative report. *)
Definition error_entries (report : list string) : nat :=
  List.length (filter (String.eqb (html_line "ERROR" "h4")) report).

(** The two example records of the specification. *)
Definition example_s1 : dict :=
  [ ("_id", JStr "s1");
    ("tests", JArr [ JObj [ ("selected_definitive", JBool true);
                            ("result", JStr "positive") ];
                     JObj [ ("selected_definitive", JBool false);
                            ("result", JStr "negative") ] ]) ].

Definition example_s2 : dict :=
  [ ("_id", JStr "s2");
    ("tests", JArr [ JObj [ ("selected_definitive", JBool true);
                            ("result", JStr "A") ];
                     JObj [ ("selected_definitive", JBool true);
                            ("result", JStr "B") ] ]) ].

(** A parameters document with its provider, and files to start from. *)
Definition example_params : dict :=
  [ ("prevalence", JFloat (1 # 100)%Q);
    ("_provider",
     JObj [ ("_administrative_area",
             JObj [ ("administrative_area", JStr "New York") ]) ]);
    ("season", JStr "2023-24") ].

Definition empty_world : world :=
  mkWorld Missing [] [] None None None None.


(** The files a later step of a script leaves alone: the parameter table
    stays as written and the narrative report only grows. *)
Definition params_stage_kept (w w' : world) : Prop :=
  params_csv w' = params_csv w
  /\ forall line, In line (info_html w) -> In line (info_html w').

(** The attachment the output script registers. *)
Definition spreadsheet_attachment : json :=
  attachment "PrevalenceEstimatorData.xlsx"
    "application/vnd.openxmlformats-officedocument.spreadsheetml.sheet"
    "downloadable".



(** ** Auxiliary functions of the proofs *)

(** What the "Set result" block assigns to [sample["result"]], as a function
    of [sample.get("tests")]: [Some r] for an assignment of [r], [None] when
    the block leaves the field alone. *)
Definition result_assignment (tests : option json) : result (option json) :=
  match tests with
  | None => Ok (Some JNull)
  | Some tests =>
      n <- py_len tests ;;
      if Nat.ltb 0 n then
        items <- py_iter tests ;;
        selected <- filter_raising is_selected_definitive items ;;
        if Nat.eqb (List.length selected) 1 then
          try_except
            (first <- match selected with
                      | t :: _ => Ok t
                      | [] => Raise IndexError
                      end ;;
             r <- py_getitem first "result" ;;
             Ok (Some r))
            [KeyError; TypeError; ValueError]
            (Ok None)
        else Ok (Some JNull)
      else Ok (Some JNull)
  end.

Definition assign_result (sample : dict) (a : option json) : dict :=
  match a with
  | Some r => dict_set sample "result" r
  | None => sample
  end.

(** The record after default-fill, identity derivation and area derivation. *)
Definition prepared (sample : dict) : dict :=
  let filled := add_missing_defaults_inplace sample needed_keys_with_defaults in
  let with_id :=
    match dict_get filled "_id" with
    | Some v => dict_set filled "id" v
    | None => filled
    end in
  match nested_area_id with_id with
  | Some v => dict_set with_id "sub_administrative_area_id" v
  | None => with_id
  end.

(** A relation between the files before and after a step of a script. *)
Definition keeps (R : world -> world -> Prop) {A : Type} (m : script A) : Prop :=
  forall w, R w (snd (m w)).

(** ** The remaining functions of [input_processing.py] *)

(** [' ' * n] *)
Fixpoint spaces (n : nat) : string :=
  match n with
  | O => ""
  | S k => String " "%char (spaces k)
  end.

Definition newline : string := String (ascii_of_nat 10) EmptyString.

Section Formatting.

Variable py_str : json -> string.

(** [format_helper] of [json_stringify_html], as the lines of a value: a
    dictionary gives, key by key, a heading line followed by the lines of a
    nested dictionary one [indent] deeper, or a single line for any other
    value. *)
Fixpoint format_value (indent : nat) (value : json) (level : nat)
    {struct value} : list string :=
  match value with
  | JObj data =>
      (fix items (d : list (string * json)) : list string :=
         match d with
         | [] => []
         | (key, v) :: rest =>
             List.app
               match v with
               | JObj _ =>
                   (spaces level ++ key ++ ":<br>")
                   :: format_value indent v (level + indent)
               | _ => [ spaces level ++ key ++ ": " ++ py_str v ++ "<br>" ]
               end
               (items rest)
         end) data
  | _ => []
  end.

Definition format_helper (indent : nat) (data : dict) (level : nat)
    : list string :=
  format_value indent (JObj data) level.

Definition json_stringify_html (data : dict) (indent : nat) : string :=
  String.concat newline (format_helper indent data indent).

(** The opening and closing tags [_dict_to_html_helper] picks for a
    [list_type], or its [ValueError]. *)
Definition list_tags (list_type : string) : result (string * string) :=
  if String.eqb list_type "unordered" then Ok ("<ul>", "</ul>")
  else if String.eqb list_type "ordered" then Ok ("<ol>", "</ol>")
  else Raise ValueError.

(** [dict_to_html_list] for any [list_type]: the text of a value of the
    dictionary, the helper's own text when the value is a dictionary. *)
Fixpoint html_of_value (list_type : string) (value : json) {struct value}
    : result string :=
  match value with
  | JObj data =>
      tags <- list_tags list_type ;;
      body <- (fix items (d : list (string * json)) : result string :=
                 match d with
                 | [] => Ok ""
                 | (key, v) :: rest =>
                     inner <- html_of_value list_type v ;;
                     more <- items rest ;;
                     Ok ("<li>" ++ key ++ ": " ++ inner ++ "</li>" ++ more)
                 end) data ;;
      Ok (fst tags ++ body ++ snd tags)
  | JArr l =>
      Ok ("<ul>"
          ++ String.concat "" (map (fun item => "<li>" ++ py_str item ++ "</li>") l)
          ++ "</ul>")
  | _ => Ok (py_str value)
  end.

Definition dict_to_html_list_typed (data : dict) (list_type : string)
    : result string :=
  html_of_value list_type (JObj data).

End Formatting.

(** The keys of a dictionary and of the dictionaries nested in it. *)
Fixpoint key_count (value : json) : nat :=
  match value with
  | JObj data =>
      (fix count (d : list (string * json)) : nat :=
         match d with
         | [] => 0
         | (_, v) :: rest => S (key_count v + count rest)
         end) data
  | _ => 0
  end.

(** The keys of a dictionary in the order [format_helper] visits them, each
    with the depth of its nesting and its value; the keys of a nested
    dictionary come right after its own key, one deeper, and a list is not
    entered. *)
Fixpoint key_entries (value : json) (depth : nat) {struct value}
    : list (nat * string * json) :=
  match value with
  | JObj data =>
      (fix entries (d : list (string * json)) : list (nat * string * json) :=
         match d with
         | [] => []
         | (key, v) :: rest =>
             List.app ((depth, key, v) :: key_entries v (S depth))
                      (entries rest)
         end) data
  | _ => []
  end.

(** The line of one key: [indent] spaces for each level of nesting after
    the [level] of the outermost keys, the key, and either a bare colon for
    a dictionary or the colon and the value. *)
Definition entry_line (py_str : json -> string) (indent level : nat)
    (entry : nat * string * json) : string :=
  match entry with
  | (depth, key, JObj _) => spaces (level + depth * indent) ++ key ++ ":<br>"
  | (depth, key, v) =>
      spaces (level + depth * indent) ++ key ++ ": " ++ py_str v ++ "<br>"
  end.

(** ** Further notions *)

(** The cells of a normalized record, in the order of the columns. *)
Definition sample_row (out : dict) : list json :=
  map (cell sample_writer out) canonical_fields.

(** The [tests] value is one [len] refuses: null, a boolean or a number. *)
Definition tests_unsized (sample : dict) : bool :=
  match dict_get sample "tests" with
  | Some JNull | Some (JBool _) | Some (JInt _) | Some (JFloat _) => true
  | _ => false
  end.

(** The normalized first example of the specification. *)
Definition example_s1_normalized : dict :=
  assign_result (prepared example_s1) (Some (JStr "positive")).

(** Whether the filter of the comprehension returns on a test entry, and
    what it returns. *)
Definition filter_returns (t : json) : bool :=
  match is_selected_definitive t with
  | Ok _ => true
  | Raise _ => false
  end.

Definition filter_keeps (t : json) : bool :=
  match is_selected_definitive t with
  | Ok b => b
  | Raise _ => false
  end.

(** The table the parameter stage writes for a document: the keys other
    than [_provider] and, under each, the document's value. *)
Definition params_table (params : dict) : table :=
  let kept := filter (fun kv => negb (String.eqb (fst kv) "_provider")) params in
  [ map JStr (dict_keys kept);
    map (cell (params_writer kept) kept) (dict_keys kept) ].

(** The two cells of a sub-area record: its [_id], else its [id], else the
    blank of the writer; and its [full_name], else the blank. *)
Definition subadmin_row (subadmin : dict) : list json :=
  [ match dict_get subadmin "_id" with
    | Some v => v
    | None => cell sub_administrative_area_writer subadmin "id"
    end;
    cell sub_administrative_area_writer subadmin "full_name" ].

(** The last record of a log. *)
Definition last_record (log : list log_record) : option log_record :=
  List.last (map Some log) None.


(** Two states of the files with the same manifest, report and log. *)
Definition same_channels (w w' : world) : Prop :=
  attachments_json w = attachments_json w'
  /\ info_html w = info_html w'
  /\ execution_log w = execution_log w'.

(** A step whose outcome, manifest, report and log are decided by the
    manifest, report and log it starts from. *)
Definition uniform {A : Type} (m : script A) : Prop :=
  forall w w',
    same_channels w w' ->
    fst (m w) = fst (m w') /\ same_channels (snd (m w)) (snd (m w')).


(** The results of the tests are texts the codec accepts. *)
Definition tests_results_encodable (tests : json) : bool :=
  match tests with
  | JArr entries =>
      forallb (fun t => match t with
                        | JObj d => cell_encodable (field_or_null d "result")
                        | _ => true
                        end) entries
  | _ => true
  end.

(** The strings of a sample that can reach a cell of its row are texts the
    codec accepts: the canonical fields, [_id], the [_id] of the nested
    area and the [result] of each test.  Nothing is asked of the other
    fields of the record. *)
Definition sample_encodable (sample : dict) : bool :=
  forallb (fun key => cell_encodable (field_or_null sample key))
          ("_id" :: canonical_fields)
  && match nested_area_id sample with
     | Some v => cell_encodable v
     | None => true
     end
  && tests_results_encodable (field_or_null sample "tests").

(** The keys and the values of the parameter table are texts the codec
    accepts. *)
Definition params_table_encodable (params : dict) : bool :=
  forallb row_encodable (params_table params).

(** A truth value among the tests' flags: the boolean true itself. *)
Definition flagged_true (test : json) : bool :=
  match test with
  | JObj d =>
      match dict_get d "selected_definitive" with
      | Some (JBool true) => true
      | _ => false
      end
  | _ => false
  end.

(** [no_single_definitive] with the flags read as booleans only. *)
Definition no_single_flagged_true (sample : dict) : Prop :=
  match dict_get sample "tests" with
  | None => True
  | Some (JArr tests) =>
      forallb is_mapping tests = true
      /\ List.length (filter flagged_true tests) <> 1
  | Some _ => False
  end.

(** A record whose only test is flagged with the number one. *)
Definition numeric_flag_sample : dict :=
  [ ("tests", JArr [ JObj [ ("selected_definitive", JInt 1);
                            ("result", JStr "A") ] ]) ].

(** What the parameter stage writes of a document is text the codec
    accepts: the table, the provider area and the listing of the report. *)
Definition params_writable (py_str : json -> string) (params : dict)
    (a : string) : bool :=
  params_table_encodable params
  && utf8_encodable a
  && utf8_encodable
       (dict_to_html_list py_str
          (filter (fun kv => negb (String.eqb (fst kv) "_provider")) params)).

(** The cells of the sub-area rows are texts the codec accepts. *)
Definition subadmins_encodable (subadmins : list dict) : bool :=
  forallb row_encodable (map subadmin_row subadmins).

(** A string that holds a lone surrogate, U+D800. *)
Definition lone_surrogate : string :=
  String (ascii_of_nat 237)
    (String (ascii_of_nat 160) (String (ascii_of_nat 128) EmptyString)).

Definition example_subadmin : dict :=
  [ ("_id", JStr "a1"); ("full_name", JStr "Tompkins") ].

Definition refused_subadmin : dict :=
  [ ("_id", JStr "a2"); ("full_name", JStr lone_surrogate) ].

(** A sample whose species holds a lone surrogate. *)
Definition refused_sample : dict :=
  [ ("_id", JStr "s3"); ("species", JStr lone_surrogate) ].

(** The fields of a sample that the loop leaves as they came. *)
Definition passthrough_fields : list string :=
  [ "species"; "age_group"; "sex"; "sample_source" ].





(** * Properties *)

(** ** Dictionaries *)

Lemma dict_get_set (d : dict) (key key' : string) (value : json) :
  dict_get (dict_set d key value) key'
  = if String.eqb key key' then Some value else dict_get d key'.
Proof.
  induction d as [| [k v] rest IH]; simpl.
  - reflexivity.
  - destruct (String.eqb_spec k key) as [-> | Hk]; simpl.
    + destruct (String.eqb key key'); reflexivity.
    + rewrite IH.
      destruct (String.eqb_spec k key') as [-> | Hk'];
        [ | reflexivity ].
      destruct (String.eqb_spec key key'); [ congruence | reflexivity ].
Qed.

Lemma dict_get_set_same (d : dict) (key : string) (value : json) :
  dict_get (dict_set d key value) key = Some value.
Proof. rewrite dict_get_set, String.eqb_refl. reflexivity. Qed.

Lemma dict_get_add_missing (d defaults : dict) (key : string) :
  dict_get (add_missing_defaults_inplace d defaults) key
  = match dict_get d key with
    | Some v => Some v
    | None => dict_get defaults key
    end.
Proof.
  revert d.
  induction defaults as [| [k v] rest IH]; intros d; simpl.
  - destruct (dict_get d key); reflexivity.
  - rewrite IH. unfold dict_has.
    destruct (dict_get d k) eqn:Ek; simpl.
    + destruct (dict_get d key) eqn:Ekey; [ reflexivity | ].
      destruct (String.eqb_spec k key); [ congruence | reflexivity ].
    + rewrite dict_get_set.
      destruct (String.eqb_spec k key) as [-> | _].
      * rewrite Ek. reflexivity.
      * reflexivity.
Qed.

Lemma dict_get_filter_other (d : dict) (key key' : string) :
  key <> key' ->
  dict_get (filter (fun kv => negb (String.eqb (fst kv) key)) d) key'
  = dict_get d key'.
Proof.
  intros Hne.
  induction d as [| [k v] rest IH]; simpl; [ reflexivity | ].
  destruct (String.eqb_spec k key) as [-> | Hk]; simpl.
  - rewrite IH.
    destruct (String.eqb_spec key key'); [ congruence | reflexivity ].
  - rewrite IH. reflexivity.
Qed.


(** ** The steps of the sample loop *)

Lemma set_id_spec (sample : dict) :
  set_id sample
  = Ok match dict_get sample "_id" with
       | Some v => dict_set sample "id" v
       | None => sample
       end.
Proof.
  unfold set_id, py_getitem.
  destruct (dict_get sample "_id"); reflexivity.
Qed.

Lemma set_sub_administrative_area_id_spec (sample : dict) :
  set_sub_administrative_area_id sample
  = Ok match nested_area_id sample with
       | Some v => dict_set sample "sub_administrative_area_id" v
       | None => sample
       end.
Proof.
  unfold set_sub_administrative_area_id, nested_area_id, py_getitem.
  destruct (dict_get sample "_sub_administrative_area") as [ [] | ];
    try reflexivity.
  simpl. destruct (dict_get members "_id"); reflexivity.
Qed.

Lemma set_result_spec (sample : dict) :
  set_result sample
  = (a <- result_assignment (dict_get sample "tests") ;;
     Ok (assign_result sample a)).
Proof.
  unfold set_result, result_assignment, dict_has.
  destruct (dict_get sample "tests") as [tests | ] eqn:Etests;
    [ | reflexivity ].
  cbn [py_getitem]. rewrite Etests. cbn [bind].
  destruct (py_len tests) as [n | ]; simpl; [ | reflexivity ].
  destruct (Nat.ltb 0 n); [ | reflexivity ].
  destruct (py_iter tests) as [items | ]; simpl; [ | reflexivity ].
  destruct (filter_raising is_selected_definitive items) as [selected | ];
    simpl; [ | reflexivity ].
  destruct (Nat.eqb (List.length selected) 1); [ | reflexivity ].
  destruct selected as [| first rest]; simpl; [ reflexivity | ].
  destruct (py_getitem first "result") as [r | e]; simpl; [ reflexivity | ].
  destruct e; reflexivity.
Qed.

Lemma dict_get_prepared (sample : dict) (key : string) :
  dict_get (prepared sample) key
  = if String.eqb "sub_administrative_area_id" key then
      Some match nested_area_id sample with
           | Some v => v
           | None => field_or_null sample key
           end
    else if String.eqb "id" key then
      Some match dict_get sample "_id" with
           | Some v => v
           | None => field_or_null sample key
           end
    else
      match dict_get sample key with
      | Some v => Some v
      | None => dict_get needed_keys_with_defaults key
      end.
Proof.
  unfold prepared.
  set (filled := add_missing_defaults_inplace sample needed_keys_with_defaults).
  assert (Hfilled : forall k, dict_get filled k
                    = match dict_get sample k with
                      | Some v => Some v
                      | None => dict_get needed_keys_with_defaults k
                      end)
    by (intros k; apply dict_get_add_missing).
  assert (Hid : dict_get filled "_id" = dict_get sample "_id").
  { rewrite Hfilled. destruct (dict_get sample "_id"); reflexivity. }
  rewrite Hid.
  set (with_id := match dict_get sample "_id" with
                  | Some v => dict_set filled "id" v
                  | None => filled
                  end).
  assert (Hwith : forall k, dict_get with_id k
                  = if String.eqb "id" k
                    then Some match dict_get sample "_id" with
                              | Some v => v
                              | None => field_or_null sample k
                              end
                    else dict_get filled k).
  { intros k. unfold with_id.
    destruct (dict_get sample "_id") as [v | ].
    - apply dict_get_set.
    - destruct (String.eqb_spec "id" k) as [<- | _]; [ | reflexivity ].
      rewrite Hfilled. unfold field_or_null.
      destruct (dict_get sample "id"); reflexivity. }
  assert (Harea : nested_area_id with_id = nested_area_id sample).
  { unfold nested_area_id. rewrite Hwith, Hfilled. simpl.
    destruct (dict_get sample "_sub_administrative_area"); reflexivity. }
  rewrite Harea.
  destruct (nested_area_id sample) as [v | ].
  - rewrite dict_get_set.
    destruct (String.eqb "sub_administrative_area_id" key);
      [ reflexivity | ].
    rewrite Hwith, Hfilled. reflexivity.
  - rewrite Hwith.
    destruct (String.eqb_spec "sub_administrative_area_id" key) as [<- | _].
    + simpl. rewrite Hfilled. unfold field_or_null.
      destruct (dict_get sample "sub_administrative_area_id"); reflexivity.
    + rewrite Hfilled. reflexivity.
Qed.

Lemma normalize_sample_spec (sample : dict) :
  normalize_sample sample
  = (a <- result_assignment (dict_get sample "tests") ;;
     Ok (assign_result (prepared sample) a)).
Proof.
  unfold normalize_sample.
  rewrite set_id_spec. cbn [bind].
  rewrite set_sub_administrative_area_id_spec. cbn [bind].
  rewrite set_result_spec.
  fold (prepared sample).
  rewrite dict_get_prepared. simpl.
  destruct (dict_get sample "tests"); reflexivity.
Qed.

(** ** The "Set result" block *)

Lemma is_selected_definitive_mapping (d : dict) :
  is_selected_definitive (JObj d) = Ok (definitive (JObj d)).
Proof.
  unfold is_selected_definitive, definitive, py_contains, py_getitem, dict_has.
  destruct (dict_get d "selected_definitive"); reflexivity.
Qed.

Lemma filter_raising_mappings (tests : list json) :
  forallb is_mapping tests = true ->
  filter_raising is_selected_definitive tests = Ok (filter definitive tests).
Proof.
  induction tests as [| t rest IH]; simpl; [ reflexivity | ].
  intros H. apply andb_prop in H. destruct H as [Ht Hrest].
  destruct t; try discriminate.
  rewrite is_selected_definitive_mapping. cbn [bind].
  rewrite (IH Hrest). cbn [bind].
  destruct (definitive (JObj members)); reflexivity.
Qed.

Lemma result_assignment_mappings (tests : list json) :
  forallb is_mapping tests = true ->
  result_assignment (Some (JArr tests))
  = Ok match filter definitive tests with
       | [t] => match t with
                | JObj d => dict_get d "result"
                | _ => None
                end
       | _ => Some JNull
       end.
Proof.
  intros Hwf. unfold result_assignment. cbn [py_len bind].
  destruct tests as [| t0 tests0]; [ reflexivity | ].
  cbn [List.length Nat.ltb Nat.leb py_iter bind].
  rewrite (filter_raising_mappings _ Hwf). cbn [bind].
  destruct (filter definitive (t0 :: tests0)) as [| t [| t' more]];
    [ reflexivity | | reflexivity ].
  cbn [List.length Nat.eqb bind try_except].
  unfold py_getitem.
  destruct t; try reflexivity.
  destruct (dict_get members "result"); reflexivity.
Qed.

Lemma is_selected_definitive_raises (t : json) (e : exn) :
  is_selected_definitive t = Raise e -> e = TypeError.
Proof.
  destruct t; simpl; try (intros H; inversion H; reflexivity).
  - unfold is_selected_definitive. simpl.
    destruct (is_substring "selected_definitive" s); simpl;
      intros H; inversion H; reflexivity.
  - unfold is_selected_definitive. simpl.
    destruct (existsb (is_str "selected_definitive") items); simpl;
      intros H; inversion H; reflexivity.
  - rewrite is_selected_definitive_mapping. discriminate.
Qed.

Lemma filter_raising_raises (tests : list json) (e : exn) :
  filter_raising is_selected_definitive tests = Raise e -> e = TypeError.
Proof.
  induction tests as [| t rest IH]; simpl; [ discriminate | ].
  destruct (is_selected_definitive t) as [b | e'] eqn:Et; cbn [bind].
  - destruct (filter_raising is_selected_definitive rest) as [kept | e''];
      cbn [bind]; [ discriminate | ].
    intros H. inversion H; subst. apply IH. reflexivity.
  - intros H. inversion H; subst.
    eapply is_selected_definitive_raises; eassumption.
Qed.

Lemma result_assignment_raises (tests : option json) (e : exn) :
  result_assignment tests = Raise e -> e = TypeError.
Proof.
  unfold result_assignment.
  destruct tests as [tests | ]; [ | discriminate ].
  destruct (py_len tests) as [n | e'] eqn:Elen; cbn [bind].
  2:{ destruct tests; simpl in Elen; try discriminate;
      inversion Elen; subst; intros H; inversion H; reflexivity. }
  destruct (Nat.ltb 0 n); [ | discriminate ].
  destruct (py_iter tests) as [items | e'] eqn:Eiter; cbn [bind].
  2:{ destruct tests; simpl in Eiter; try discriminate;
      inversion Eiter; subst; intros H; inversion H; reflexivity. }
  destruct (filter_raising is_selected_definitive items) as [selected | e']
    eqn:Efilter; cbn [bind].
  2:{ intros H. inversion H; subst.
      eapply filter_raising_raises; eassumption. }
  destruct (Nat.eqb (List.length selected) 1) eqn:Eone; [ | discriminate ].
  destruct selected as [| first rest]; [ discriminate | ].
  cbn [bind]. unfold py_getitem.
  destruct first; simpl; try discriminate.
  destruct (dict_get members "result"); simpl; discriminate.
Qed.

Lemma result_assignment_total (sample : dict) :
  tests_well_formed sample = true ->
  exists a, result_assignment (dict_get sample "tests") = Ok a.
Proof.
  unfold tests_well_formed.
  destruct (dict_get sample "tests") as [ [] | ]; try discriminate.
  - intros Hwf. rewrite (result_assignment_mappings _ Hwf). eauto.
  - intros _. simpl. eauto.
Qed.

(** A record either normalizes, or raises [TypeError] on ill-formed tests. *)
Lemma normalize_sample_cases (sample : dict) :
  match normalize_sample sample with
  | Ok out =>
      exists a, result_assignment (dict_get sample "tests") = Ok a
                /\ out = assign_result (prepared sample) a
  | Raise e => e = TypeError /\ tests_well_formed sample = false
  end.
Proof.
  rewrite normalize_sample_spec.
  destruct (result_assignment (dict_get sample "tests")) as [a | e] eqn:Ea;
    cbn [bind].
  - exists a. split; reflexivity.
  - split.
    + eapply result_assignment_raises; eassumption.
    + destruct (tests_well_formed sample) eqn:Ewf; [ | reflexivity ].
      destruct (result_assignment_total _ Ewf) as [a Ha]. congruence.
Qed.

Lemma dict_get_normalized (sample out : dict) :
  normalize_sample sample = Ok out ->
  exists a,
    result_assignment (dict_get sample "tests") = Ok a
    /\ forall key,
         dict_get out key
         = match a with
           | Some r =>
               if String.eqb "result" key then Some r
               else dict_get (prepared sample) key
           | None => dict_get (prepared sample) key
           end.
Proof.
  intros Hout.
  pose proof (normalize_sample_cases sample) as Hcases.
  rewrite Hout in Hcases. destruct Hcases as [a [Ha ->]].
  exists a. split; [ exact Ha | ].
  intros key. destruct a as [r | ]; cbn [assign_result];
    [ apply dict_get_set | reflexivity ].
Qed.

Lemma normalized_has_canonical_fields (sample out : dict) :
  normalize_sample sample = Ok out ->
  Forall (fun key => dict_has out key = true) canonical_fields.
Proof.
  intros Hout.
  pose proof (normalize_sample_cases sample) as Hcases.
  rewrite Hout in Hcases. destruct Hcases as [a [_ ->]].
  unfold canonical_fields.
  repeat constructor; unfold dict_has;
    destruct a as [r | ]; cbn [assign_result];
    rewrite ?dict_get_set, dict_get_prepared; simpl;
    try reflexivity;
    match goal with
    | |- context [dict_get sample ?k] => destruct (dict_get sample k)
    end; reflexivity.
Qed.

(** With exactly one definitive test the record's [result] becomes that
    test's [result]; when the test has none, the block passes and the
    record keeps the [result] it had after default-fill. *)
Lemma normalize_single_definitive (sample : dict) (tests : list json) (d : dict) :
  dict_get sample "tests" = Some (JArr tests) ->
  forallb is_mapping tests = true ->
  filter definitive tests = [JObj d] ->
  exists out,
    normalize_sample sample = Ok out
    /\ dict_get out "result"
       = Some match dict_get d "result" with
              | Some r => r
              | None => field_or_null sample "result"
              end.
Proof.
  intros Htests Hwf Hone.
  rewrite normalize_sample_spec, Htests, (result_assignment_mappings _ Hwf), Hone.
  cbn [bind]. eexists. split; [ reflexivity | ].
  destruct (dict_get d "result") as [r | ]; cbn [assign_result].
  - apply dict_get_set_same.
  - rewrite dict_get_prepared. simpl. unfold field_or_null.
    destruct (dict_get sample "result"); reflexivity.
Qed.

(** C1 (the code departs from the claim): the only definitive test of
    [stale_result_sample] has no [result] field, and the normalized record
    keeps the input's own [result], "Detected", instead of null. *)
Theorem C1_stale_result_survives :
  exists out,
    normalize_sample stale_result_sample = Ok out
    /\ dict_get out "result" = Some (JStr "Detected").
Proof.
  eexists. split; [ vm_compute; reflexivity | reflexivity ].
Qed.

(** C2: default-fill is a total function on records; after it each of the
    seven canonical fields is present, holding the input's value when the
    input had the field (an explicit null included) and null otherwise, and
    every lookup of a field the input had is unchanged; a normalized record
    still has all seven fields, and the only way normalization ends
    otherwise is a [TypeError] on a record whose tests are ill-formed. *)
Theorem C2_default_fill (sample : dict) :
  let filled := add_missing_defaults_inplace sample needed_keys_with_defaults in
  Forall (fun key => dict_get filled key = Some (field_or_null sample key))
         canonical_fields
  /\ (forall key,
        dict_get filled key
        = match dict_get sample key with
          | Some v => Some v
          | None => dict_get needed_keys_with_defaults key
          end)
  /\ match normalize_sample sample with
     | Ok out => Forall (fun key => dict_has out key = true) canonical_fields
     | Raise e => e = TypeError /\ tests_well_formed sample = false
     end.
Proof.
  cbv zeta. split; [ | split ].
  - unfold canonical_fields.
    repeat constructor;
      rewrite dict_get_add_missing; unfold field_or_null;
      match goal with
      | |- context [dict_get sample ?k] => destruct (dict_get sample k)
      end; reflexivity.
  - intros key. apply dict_get_add_missing.
  - pose proof (normalize_sample_cases sample) as Hcases.
    destruct (normalize_sample sample) as [out | e] eqn:Hout;
      [ | exact Hcases ].
    eapply normalized_has_canonical_fields; eassumption.
Qed.

(** C3: a record with no [tests] field, with an empty [tests] sequence, or
    with a sequence of test entries of which none, or two or more, are
    definitive, normalizes to a record whose [result] is null. *)
Theorem C3_no_single_definitive_gives_null (sample : dict) :
  no_single_definitive sample ->
  exists out,
    normalize_sample sample = Ok out
    /\ dict_get out "result" = Some JNull.
Proof.
  unfold no_single_definitive. intros H.
  rewrite normalize_sample_spec.
  destruct (dict_get sample "tests") as [tests | ] eqn:Etests.
  - destruct tests; try contradiction.
    destruct H as [Hwf Hcount].
    rewrite (result_assignment_mappings _ Hwf). cbn [bind].
    eexists. split; [ reflexivity | ].
    destruct (filter definitive items) as [| t [| t' more]];
      cbn [assign_result]; try apply dict_get_set_same.
    exfalso. apply Hcount. reflexivity.
  - simpl. eexists. split; [ reflexivity | ]. apply dict_get_set_same.
Qed.

(** The second example of the specification: two definitive tests. *)
Lemma C3_witness :
  no_single_definitive example_s2
  /\ exists out,
       normalize_sample example_s2 = Ok out
       /\ dict_get out "result" = Some JNull.
Proof.
  assert (H : no_single_definitive example_s2).
  { simpl. split; [ reflexivity | discriminate ]. }
  split; [ exact H | ].
  apply (C3_no_single_definitive_gives_null _ H).
Defined.

(** C3, with the flags read as booleans only, fails on
    [numeric_flag_sample]: none of its tests is flagged with the boolean
    true, and its normalized [result] is "A", the result of the test
    flagged with the number one, because the number one compares equal to
    [True]. *)
Lemma C3_counterexample :
  no_single_flagged_true numeric_flag_sample
  /\ exists out,
       normalize_sample numeric_flag_sample = Ok out
       /\ dict_get out "result" = Some (JStr "A")
       /\ dict_get out "result" <> Some JNull.
Proof.
  split.
  - simpl. split; [ reflexivity | discriminate ].
  - eexists. split; [ reflexivity | ].
    split; [ reflexivity | discriminate ].
Qed.

(** C7: the area step sets [sub_administrative_area_id] to the [_id] of a
    nested [_sub_administrative_area] object when there is one and leaves
    the record as it is otherwise, touching no other field; in the
    normalized record the field is that [_id], or else the input's own value,
    or else the null of default-fill. *)
Theorem C7_area_derivation (sample : dict) :
  (exists out,
     set_sub_administrative_area_id sample = Ok out
     /\ forall key,
          dict_get out key
          = match nested_area_id sample with
            | Some v =>
                if String.eqb "sub_administrative_area_id" key then Some v
                else dict_get sample key
            | None => dict_get sample key
            end)
  /\ match normalize_sample sample with
     | Ok out =>
         dict_get out "sub_administrative_area_id"
         = Some match nested_area_id sample with
                | Some v => v
                | None => field_or_null sample "sub_administrative_area_id"
                end
     | Raise e => e = TypeError /\ tests_well_formed sample = false
     end.
Proof.
  split.
  - rewrite set_sub_administrative_area_id_spec.
    eexists. split; [ reflexivity | ].
    intros key.
    destruct (nested_area_id sample); [ apply dict_get_set | reflexivity ].
  - pose proof (normalize_sample_cases sample) as Hcases.
    destruct (normalize_sample sample) as [out | e]; [ | exact Hcases ].
    destruct Hcases as [a [_ ->]].
    destruct a as [r | ]; cbn [assign_result];
      rewrite ?dict_get_set, dict_get_prepared; reflexivity.
Qed.

(** C10: a record whose [tests] is null, a number, or a sequence with an
    entry that is not a mapping makes the normalizer raise; on every record
    whose [tests], when present, is a sequence of mappings it returns. *)
Theorem C10_tests_partiality :
  normalize_sample [ ("tests", JNull) ] = Raise TypeError
  /\ normalize_sample [ ("tests", JInt 3) ] = Raise TypeError
  /\ normalize_sample [ ("tests", JArr [ JObj []; JInt 3 ]) ] = Raise TypeError
  /\ forall sample,
       tests_well_formed sample = true ->
       exists out, normalize_sample sample = Ok out.
Proof.
  repeat split; try reflexivity.
  intros sample Hwf.
  rewrite normalize_sample_spec.
  destruct (result_assignment_total _ Hwf) as [a ->].
  cbn [bind]. eauto.
Qed.

(** The first example of the specification is a well-formed record. *)
Lemma C10_witness :
  tests_well_formed example_s1 = true
  /\ exists out, normalize_sample example_s1 = Ok out.
Proof.
  split; [ reflexivity | ].
  apply (proj2 (proj2 (proj2 C10_tests_partiality))).
  reflexivity.
Defined.

(** The number one compares equal to [True], so a test flagged with it is
    selected like one flagged with the boolean. *)
Example numeric_flag_is_definitive :
  normalize_sample
    [ ("tests", JArr [ JObj [ ("selected_definitive", JInt 1);
                              ("result", JStr "A") ] ]) ]
  = Ok [ ("tests", JArr [ JObj [ ("selected_definitive", JInt 1);
                                 ("result", JStr "A") ] ]);
         ("id", JNull); ("sub_administrative_area_id", JNull);
         ("species", JNull); ("age_group", JNull); ("sex", JNull);
         ("sample_source", JNull); ("result", JStr "A") ].
Proof. reflexivity. Qed.

(** A [tests] value that is a string has a length and characters, none of
    which is selected: the record normalizes with a null [result]. *)
Example string_tests_give_null :
  normalize_sample [ ("tests", JStr "abc") ]
  = Ok [ ("tests", JStr "abc");
         ("id", JNull); ("sub_administrative_area_id", JNull);
         ("species", JNull); ("age_group", JNull); ("sex", JNull);
         ("sample_source", JNull); ("result", JNull) ].
Proof. reflexivity. Qed.

(** ** Tabulating the samples *)

Lemma write_csv_ignore (w : DictWriter) (rows : list dict) :
  extrasaction w = ExtrasIgnore ->
  write_csv w rows
  = Ok (writeheader w :: map (fun r => map (cell w r) (fieldnames w)) rows).
Proof.
  intros Hignore. unfold write_csv.
  assert (Hbody : map_raising (dict_to_list w) rows
                  = Ok (map (fun r => map (cell w r) (fieldnames w)) rows)).
  { induction rows as [| r rest IH]; simpl; [ reflexivity | ].
    unfold dict_to_list at 1. rewrite Hignore. cbn [bind].
    rewrite IH. reflexivity. }
  rewrite Hbody. reflexivity.
Qed.

Lemma normalize_samples_well_formed (samples : list dict) :
  Forall (fun s => tests_well_formed s = true) samples ->
  exists normalized,
    normalize_samples samples = Ok normalized
    /\ Forall2 (fun s out => normalize_sample s = Ok out) samples normalized.
Proof.
  unfold normalize_samples.
  induction 1 as [| s rest Hs _ IH]; simpl.
  - exists []. split; [ reflexivity | constructor ].
  - destruct IH as [normalized [Hrest Hall]].
    pose proof (normalize_sample_cases s) as Hcases.
    destruct (normalize_sample s) as [out | e] eqn:Hout.
    + exists (out :: normalized). cbn [bind]. rewrite Hrest.
      split; [ reflexivity | constructor; assumption ].
    + destruct Hcases as [_ Hbad]. congruence.
Qed.





Lemma encode_rows_all (tbl : table) :
  forallb row_encodable tbl = true -> encode_rows tbl = (tbl, None).
Proof.
  induction tbl as [| row rest IH]; [ reflexivity | ].
  cbn [forallb encode_rows]. intros H.
  apply andb_prop in H. destruct H as [Hrow Hrest].
  rewrite Hrow, (IH Hrest). reflexivity.
Qed.

Lemma result_assignment_encodable (sample : dict) (r : json) :
  tests_well_formed sample = true ->
  tests_results_encodable (field_or_null sample "tests") = true ->
  result_assignment (dict_get sample "tests") = Ok (Some r) ->
  cell_encodable r = true.
Proof.
  unfold tests_well_formed, field_or_null.
  destruct (dict_get sample "tests") as [ [] | ]; try discriminate.
  - intros Hwf Henc. rewrite (result_assignment_mappings _ Hwf).
    destruct (filter definitive items) as [| t [| t' more]] eqn:Ekept;
      try (intros H; inversion H; reflexivity).
    destruct t as [ | | | | | | d ]; try discriminate.
    intros H. inversion H as [Hr].
    assert (Hin : In (JObj d) items).
    { apply (proj1 (filter_In definitive (JObj d) items)).
      rewrite Ekept. left. reflexivity. }
    cbn [tests_results_encodable] in Henc.
    rewrite forallb_forall in Henc. specialize (Henc _ Hin).
    cbn in Henc. unfold field_or_null in Henc. rewrite Hr in Henc. exact Henc.
  - intros _ _ H. inversion H. reflexivity.
Qed.

Lemma normalized_row_encodable (sample out : dict) :
  normalize_sample sample = Ok out ->
  tests_well_formed sample = true ->
  sample_encodable sample = true ->
  row_encodable (sample_row out) = true.
Proof.
  intros Hout Hwf Henc.
  destruct (dict_get_normalized _ Hout) as [a [Ha Hget]].
  unfold sample_encodable in Henc. cbn [forallb canonical_fields] in Henc.
  repeat match goal with
         | H : _ && _ = true |- _ => apply andb_prop in H; destruct H
         end.
  assert (Hresult : forall r, a = Some r -> cell_encodable r = true).
  { intros r ->. eapply result_assignment_encodable; eassumption. }
  unfold sample_row, row_encodable, canonical_fields, cell.
  cbn [map forallb].
  rewrite !Hget, !dict_get_prepared.
  destruct a as [r | ]; cbn;
    rewrite ?(Hresult _ eq_refl);
    unfold field_or_null in *;
    repeat match goal with
           | |- context [match nested_area_id sample with _ => _ end] =>
               destruct (nested_area_id sample)
           | |- context [dict_get sample ?k] => destruct (dict_get sample k)
           end;
    cbn in *;
    repeat match goal with
           | H : ?x = true |- context [?x] => rewrite H
           end;
    reflexivity.
Qed.

Lemma tabulate_samples_encodable (samples normalized : list dict) :
  normalize_samples samples = Ok normalized ->
  forallb row_encodable (map sample_row normalized) = true ->
  tabulate_samples samples
  = Ok (map JStr canonical_fields :: map sample_row normalized).
Proof.
  intros Hnorm Henc. unfold tabulate_samples. rewrite Hnorm. cbn [bind].
  rewrite write_csv_ignore by reflexivity. cbn [bind].
  change (writeheader sample_writer
          :: map (fun r => map (cell sample_writer r) (fieldnames sample_writer))
                 normalized)
    with (map JStr canonical_fields :: map sample_row normalized).
  rewrite encode_rows_all; [ reflexivity | ].
  cbn [forallb]. rewrite Henc. reflexivity.
Qed.

Lemma normalized_rows_encodable (samples normalized : list dict) :
  Forall (fun s => tests_well_formed s = true) samples ->
  Forall (fun s => sample_encodable s = true) samples ->
  Forall2 (fun s out => normalize_sample s = Ok out) samples normalized ->
  forallb row_encodable (map sample_row normalized) = true.
Proof.
  intros Hwf Henc Hall. revert Hwf Henc.
  induction Hall as [| s out rest outs Hout _ IH]; intros Hwf Henc;
    [ reflexivity | ].
  inversion Hwf; subst. inversion Henc; subst.
  cbn [map forallb].
  rewrite (normalized_row_encodable _ Hout) by assumption.
  apply IH; assumption.
Qed.


(** The rows of the two examples of the specification. *)
Example example_rows :
  tabulate_samples [ example_s1; example_s2 ]
  = Ok [ map JStr canonical_fields;
         [ JStr "s1"; JNull; JNull; JNull; JNull; JNull; JStr "positive" ];
         [ JStr "s2"; JNull; JNull; JNull; JNull; JNull; JNull ] ].
Proof. reflexivity. Qed.

(** With the writer's default [extrasaction='raise'] the same record would be
    refused for the fields it carries beside the columns. *)
Example extras_raise_without_ignore :
  dict_to_list (mkDictWriter canonical_fields ExtrasRaise (JStr "")) example_s1
  = Raise ValueError.
Proof. reflexivity. Qed.


(** ** The input script *)

Section InputProperties.

Variable py_str : json -> string.
Variables now_html now_log : string.

(** The files once the set-up and the head of the report are written. *)
Lemma setup_spec (w : world) :
  setup now_html now_log w
  = (Ok tt,
     mkWorld
       (Parsed (JArr [ attachment "execution_log.log" "text/plain" "downloadable";
                       attachment "info.html" "text/html" "feedback" ]))
       [ html_line "Model Execution Summary" "h3";
         html_line "Model: Prevalence Estimator Data Export" "p";
         html_line ("Date: " ++ now_html ++ " GMT") "p" ]
       [ LogInfo "Model: Prevalence Estimator Data Export";
         LogInfo ("Date: " ++ now_log ++ " GMT");
         LogInfo
           "This log records data for debugging purposes in the case of a model execution error." ]
       (params_csv w) (sample_csv w) (sub_administrative_area_csv w)
       (PrevalenceEstimatorData_xlsx w)).
Proof. reflexivity. Qed.

Lemma provider_admin_area_of_found (params : json) (area : json) :
  provider_path params = Some area ->
  provider_admin_area_of params = Ok area.
Proof.
  unfold provider_path, provider_admin_area_of, py_getitem.
  destruct params; try discriminate.
  destruct (dict_get members "_provider") as [ [] | ]; try discriminate.
  cbn [bind].
  destruct (dict_get members0 "_administrative_area") as [ [] | ];
    try discriminate.
  cbn [bind]. intros ->. reflexivity.
Qed.

Lemma provider_admin_area_of_not_found (params : json) :
  provider_path params = None ->
  exists e,
    provider_admin_area_of params = Raise e
    /\ (e = KeyError \/ e = TypeError).
Proof.
  unfold provider_path, provider_admin_area_of, py_getitem.
  destruct params; try (intros _; eexists; split; [ reflexivity | auto ]).
  destruct (dict_get members "_provider") as [ [] | ]; cbn [bind];
    try (intros _; eexists; split; [ reflexivity | auto ]).
  destruct (dict_get members0 "_administrative_area") as [ [] | ];
    cbn [bind];
    try (intros _; eexists; split; [ reflexivity | auto ]).
  intros ->. eexists; split; [ reflexivity | auto ].
Qed.

Lemma process_parameters_not_found (params : json) (e : exn) (w : world) :
  provider_admin_area_of params = Raise e ->
  process_parameters py_str (Parsed params) w
  = (Raise e,
     with_execution_log
       (execution_log w ++ [ LogInfo "Parameter file loaded successfully" ])%list
       w).
Proof.
  intros Hraise.
  unfold process_parameters, load_parameters, sbind, logging_info, modify,
    ret, lift.
  rewrite Hraise. reflexivity.
Qed.

End InputProperties.

(** C5: with the parameters document absent the script ends with status 1;
    none of the three tables is written; the narrative report is the three
    head lines followed by one error heading and its message, so it holds
    exactly one error entry; and the log ends with the error record. *)
Theorem C5_missing_parameters_halt (py_str : json -> string)
    (now_html now_log : string) (samples subadmins : file_state (list dict))
    (w : world) :
  let out :=
    run (input_processing py_str now_html now_log Missing samples subadmins) w in
  fst out = 1%Z
  /\ params_csv (snd out) = params_csv w
  /\ sample_csv (snd out) = sample_csv w
  /\ sub_administrative_area_csv (snd out) = sub_administrative_area_csv w
  /\ info_html (snd out)
     = [ html_line "Model Execution Summary" "h3";
         html_line "Model: Prevalence Estimator Data Export" "p";
         html_line ("Date: " ++ now_html ++ " GMT") "p";
         html_line "ERROR" "h4";
         html_line "Parameters (params.json) file not found." "p" ]
  /\ error_entries (info_html (snd out)) = 1
  /\ execution_log (snd out)
     = [ LogInfo "Model: Prevalence Estimator Data Export";
         LogInfo ("Date: " ++ now_log ++ " GMT");
         LogInfo
           "This log records data for debugging purposes in the case of a model execution error.";
         LogError "params.json File does not exist." ].
Proof.
  cbv zeta. repeat split; reflexivity.
Qed.

(** A parameters file that is there but does not decode ends the same way:
    the bare [except] makes no difference between the two. *)
Lemma unparseable_parameters_halt (py_str : json -> string)
    (now_html now_log : string) (samples subadmins : file_state (list dict))
    (w : world) :
  run (input_processing py_str now_html now_log Unparseable samples subadmins) w
  = run (input_processing py_str now_html now_log Missing samples subadmins) w.
Proof. reflexivity. Qed.

(** C9: a parameters document that is parsed but has no administrative area
    under [_provider] ends the script with an exception no handler catches:
    status 1 through the exception hook, which logs it; the report holds the
    three head lines and no error entry; no table is written and nothing of
    the sample stage is logged or reported. *)
Theorem C9_provider_missing_uncaught (py_str : json -> string)
    (now_html now_log : string) (params : json)
    (samples subadmins : file_state (list dict)) (w : world) :
  provider_path params = None ->
  let out :=
    run (input_processing py_str now_html now_log (Parsed params)
           samples subadmins) w in
  fst out = 1%Z
  /\ (exists e,
        (e = KeyError \/ e = TypeError)
        /\ fst (input_processing py_str now_html now_log (Parsed params)
                  samples subadmins w) = Raise e
        /\ execution_log (snd out)
           = [ LogInfo "Model: Prevalence Estimator Data Export";
               LogInfo ("Date: " ++ now_log ++ " GMT");
               LogInfo
                 "This log records data for debugging purposes in the case of a model execution error.";
               LogInfo "Parameter file loaded successfully";
               LogUncaught e ])
  /\ info_html (snd out)
     = [ html_line "Model Execution Summary" "h3";
         html_line "Model: Prevalence Estimator Data Export" "p";
         html_line ("Date: " ++ now_html ++ " GMT") "p" ]
  /\ error_entries (info_html (snd out)) = 0
  /\ params_csv (snd out) = params_csv w
  /\ sample_csv (snd out) = sample_csv w
  /\ sub_administrative_area_csv (snd out) = sub_administrative_area_csv w.
Proof.
  intros Hpath. cbv zeta.
  destruct (provider_admin_area_of_not_found _ Hpath) as [e [Hraise He]].
  assert (Hrun :
            input_processing py_str now_html now_log (Parsed params)
              samples subadmins w
            = (Raise e,
               mkWorld
                 (Parsed (JArr [ attachment "execution_log.log" "text/plain"
                                   "downloadable";
                                 attachment "info.html" "text/html" "feedback" ]))
                 [ html_line "Model Execution Summary" "h3";
                   html_line "Model: Prevalence Estimator Data Export" "p";
                   html_line ("Date: " ++ now_html ++ " GMT") "p" ]
                 [ LogInfo "Model: Prevalence Estimator Data Export";
                   LogInfo ("Date: " ++ now_log ++ " GMT");
                   LogInfo
                     "This log records data for debugging purposes in the case of a model execution error.";
                   LogInfo "Parameter file loaded successfully" ]
                 (params_csv w) (sample_csv w) (sub_administrative_area_csv w)
                 (PrevalenceEstimatorData_xlsx w))).
  { unfold input_processing.
    unfold sbind at 1. rewrite setup_spec.
    unfold sbind at 1.
    rewrite (process_parameters_not_found py_str _ _ Hraise).
    reflexivity. }
  unfold run. rewrite Hrun.
  destruct He as [-> | ->]; cbn [fst snd].
  - split; [ reflexivity | ].
    split; [ exists KeyError; auto | ].
    repeat split; reflexivity.
  - split; [ reflexivity | ].
    split; [ exists TypeError; auto | ].
    repeat split; reflexivity.
Qed.

(** An empty parameters object has no [_provider]. *)
Lemma C9_witness :
  provider_path (JObj []) = None
  /\ fst (run (input_processing (fun _ => "") "" "" (Parsed (JObj []))
                 (Parsed [ example_s1 ]) (Parsed []))
              empty_world) = 1%Z.
Proof.
  split; [ reflexivity | ].
  exact (proj1 (C9_provider_missing_uncaught (fun _ => "") "" "" (JObj [])
                  (Parsed [ example_s1 ]) (Parsed []) empty_world eq_refl)).
Defined.

(** ** What the later stages leave alone *)

Section Keeps.

Variable R : world -> world -> Prop.
Hypothesis R_refl : forall w, R w w.
Hypothesis R_trans : forall w1 w2 w3, R w1 w2 -> R w2 w3 -> R w1 w3.

Lemma keeps_ret {A : Type} (a : A) : keeps R (ret a).
Proof. intros w. apply R_refl. Qed.

Lemma keeps_lift {A : Type} (r : result A) : keeps R (lift r).
Proof. intros w. apply R_refl. Qed.

Lemma keeps_sys_exit {A : Type} (status : Z) : keeps R (@sys_exit A status).
Proof. intros w. apply R_refl. Qed.

Lemma keeps_modify (f : world -> world) :
  (forall w, R w (f w)) -> keeps R (modify f).
Proof. intros Hf w. apply Hf. Qed.

Lemma keeps_sbind {A B : Type} (m : script A) (k : A -> script B) :
  keeps R m -> (forall a, keeps R (k a)) -> keeps R (sbind m k).
Proof.
  intros Hm Hk w. unfold sbind.
  specialize (Hm w).
  destruct (m w) as [[a | e] w']; cbn [snd] in *.
  - eapply R_trans; [ exact Hm | apply Hk ].
  - exact Hm.
Qed.

Lemma keeps_write_csv_file (store : table -> world -> world)
    (w : DictWriter) (rows : list dict) :
  (forall t w0, R w0 (store t w0)) ->
  keeps R (write_csv_file store w rows).
Proof.
  intros Hstore. unfold write_csv_file.
  apply keeps_sbind; [ apply keeps_lift | intros tbl ].
  apply keeps_sbind; [ apply keeps_modify; intros w0; apply Hstore | intros _ ].
  destruct (snd (encode_rows tbl)); [ apply keeps_lift | apply keeps_ret ].
Qed.

Lemma keeps_model_log_html_text (line html_element : string) :
  keeps R (model_log_html line html_element) ->
  keeps R (model_log_html_text line html_element).
Proof.
  intros H. unfold model_log_html_text.
  destruct (utf8_encodable (html_line line html_element));
    [ exact H | apply keeps_lift ].
Qed.

End Keeps.

Lemma params_stage_kept_refl (w : world) : params_stage_kept w w.
Proof. split; [ reflexivity | auto ]. Qed.

Lemma params_stage_kept_trans (w1 w2 w3 : world) :
  params_stage_kept w1 w2 -> params_stage_kept w2 w3 -> params_stage_kept w1 w3.
Proof.
  intros [H12 I12] [H23 I23]. split; [ congruence | auto ].
Qed.

Lemma model_log_html_kept (line html_element : string) :
  keeps params_stage_kept (model_log_html line html_element).
Proof.
  intros w. split; [ reflexivity | ].
  intros l Hl. cbn. apply in_or_app. left. exact Hl.
Qed.

Lemma logging_info_kept (message : string) :
  keeps params_stage_kept (logging_info message).
Proof. intros w. split; [ reflexivity | auto ]. Qed.

Lemma logging_error_kept (message : string) :
  keeps params_stage_kept (logging_error message).
Proof. intros w. split; [ reflexivity | auto ]. Qed.

Ltac kept_steps :=
  repeat first
    [ apply (@keeps_write_csv_file params_stage_kept
               params_stage_kept_refl params_stage_kept_trans);
      intros ? ?; split; [ reflexivity | auto ]
    | apply (@keeps_model_log_html_text params_stage_kept
               params_stage_kept_refl);
      apply model_log_html_kept
    | apply (keeps_sbind params_stage_kept_trans); [ | intros ? ]
    | apply model_log_html_kept
    | apply logging_info_kept
    | apply logging_error_kept
    | apply (keeps_ret params_stage_kept_refl)
    | apply (keeps_lift params_stage_kept_refl)
    | apply (keeps_sys_exit params_stage_kept_refl)
    | apply keeps_modify; intros ?; split; [ reflexivity | auto ] ].

Lemma process_samples_kept (py_str : json -> string)
    (sample_ndjson : file_state (list dict)) :
  keeps params_stage_kept (process_samples py_str sample_ndjson).
Proof.
  unfold process_samples, load_samples.
  destruct sample_ndjson; kept_steps.
Qed.

Lemma process_subadmins_kept (sub_administrative_area_ndjson : file_state (list dict)) :
  keeps params_stage_kept (process_subadmins sub_administrative_area_ndjson).
Proof.
  unfold process_subadmins, load_subadmins.
  destruct sub_administrative_area_ndjson; kept_steps.
Qed.

Lemma run_kept (main : script unit) :
  keeps params_stage_kept main ->
  forall w, params_stage_kept w (snd (run main w)).
Proof.
  intros Hmain w. unfold run. specialize (Hmain w).
  destruct (main w) as [[[] | e] w']; cbn [snd] in *; [ exact Hmain | ].
  destruct e; exact Hmain.
Qed.

(** ** The parameter stage *)

Lemma dict_get_of_key (d : dict) (key : string) :
  In key (dict_keys d) -> exists v, dict_get d key = Some v.
Proof.
  induction d as [| [k v] rest IH]; simpl; [ contradiction | ].
  intros [-> | Hin].
  - rewrite String.eqb_refl. eauto.
  - destruct (String.eqb k key); eauto.
Qed.

Lemma dict_keys_filter (d : dict) (key : string) :
  dict_keys (filter (fun kv => negb (String.eqb (fst kv) key)) d)
  = filter (fun k => negb (String.eqb k key)) (dict_keys d).
Proof.
  unfold dict_keys.
  induction d as [| [k v] rest IH]; simpl; [ reflexivity | ].
  destruct (String.eqb k key); simpl; rewrite IH; reflexivity.
Qed.

(** The single data row of [params.csv] holds, column by column, the value
    the document gives to that key. *)
Lemma params_row_unchanged (params : dict) :
  let kept := filter (fun kv => negb (String.eqb (fst kv) "_provider")) params in
  Forall2 (fun key c => dict_get params key = Some c)
          (dict_keys kept)
          (map (cell (params_writer kept) kept) (dict_keys kept)).
Proof.
  cbv zeta.
  set (kept := filter (fun kv => negb (String.eqb (fst kv) "_provider")) params).
  assert (Hkeys : forall key, In key (dict_keys kept) ->
                              dict_get params key
                              = Some (cell (params_writer kept) kept key)).
  { intros key Hin.
    destruct (dict_get_of_key _ _ Hin) as [v Hv].
    unfold cell. rewrite Hv. rewrite <- Hv.
    symmetry. apply dict_get_filter_other.
    unfold kept in Hin. rewrite dict_keys_filter in Hin.
    apply filter_In in Hin. destruct Hin as [_ Hne].
    intros <-. rewrite String.eqb_refl in Hne. discriminate. }
  induction (dict_keys kept) as [| key keys IH]; simpl; constructor.
  - apply Hkeys. left. reflexivity.
  - apply IH. intros k Hk. apply Hkeys. right. exact Hk.
Qed.

Lemma utf8_encodable_app (s1 s2 : string) :
  utf8_encodable s1 = true ->
  utf8_encodable (s1 ++ s2) = utf8_encodable s2.
Proof.
  remember (String.length s1) as n eqn:Hn.
  revert s1 Hn.
  induction n as [n IH] using (well_founded_induction Wf_nat.lt_wf).
  intros s1 Hn H. subst n.
  destruct s1 as [| c0 r0]; [ reflexivity | ].
  cbn [utf8_encodable append] in *.
  destruct (between 0 127 c0).
  { apply (IH (String.length r0)); [ cbn; lia | reflexivity | exact H ]. }
  destruct (between 194 223 c0).
  { destruct r0 as [| c1 r1]; [ discriminate | ].
    cbn [append]. apply andb_prop in H. destruct H as [H1 H2].
    rewrite H1. cbn [andb].
    apply (IH (String.length r1)); [ cbn; lia | reflexivity | exact H2 ]. }
  destruct (between 224 239 c0).
  { destruct r0 as [| c1 [| c2 r2]]; try discriminate.
    cbn [append]. apply andb_prop in H. destruct H as [H12 H3].
    rewrite H12. cbn [andb].
    apply (IH (String.length r2)); [ cbn; lia | reflexivity | exact H3 ]. }
  destruct (between 240 244 c0); [ | discriminate ].
  destruct r0 as [| c1 [| c2 [| c3 r3]]]; try discriminate.
  cbn [append]. apply andb_prop in H. destruct H as [H123 H4].
  rewrite H123. cbn [andb].
  apply (IH (String.length r3)); [ cbn; lia | reflexivity | exact H4 ].
Qed.

(** A line of the report is a text the codec accepts when what it wraps
    is. *)
Lemma html_line_encodable (line : string) :
  utf8_encodable line = true ->
  utf8_encodable (html_line line "p") = true.
Proof.
  intros H. unfold html_line.
  change (utf8_encodable (line ++ "</p>") = true).
  rewrite (utf8_encodable_app _ _ H). reflexivity.
Qed.

Lemma provider_line_encodable (a : string) :
  utf8_encodable a = true ->
  utf8_encodable (html_line ("Provider area: " ++ a) "p") = true.
Proof.
  intros H. apply html_line_encodable.
  change (utf8_encodable a = true). exact H.
Qed.

Section ParameterStage.

Variable py_str : json -> string.
Variables now_html now_log : string.

(** The parameter stage on a document that has its provider path, in full:
    the table ends at the first row the codec refuses; then the area must
    be a string to be concatenated; then each of the two lines that carry
    text of the document is written if the codec accepts it. *)
Lemma process_parameters_found (params : dict) (area : json) (w : world) :
  provider_path (JObj params) = Some area ->
  let kept := filter (fun kv => negb (String.eqb (fst kv) "_provider")) params in
  let written :=
    with_params_csv (fst (encode_rows (params_table params)))
      (with_execution_log
         (execution_log w ++ [ LogInfo "Parameter file loaded successfully" ])%list
         w) in
  process_parameters py_str (Parsed (JObj params)) w
  = match snd (encode_rows (params_table params)) with
    | Some e => (Raise e, written)
    | None =>
        match area with
        | JStr a =>
            if utf8_encodable (html_line ("Provider area: " ++ a) "p") then
              if utf8_encodable (html_line (dict_to_html_list py_str kept) "p")
              then
                (Ok tt,
                 with_info_html
                   (((info_html w ++ [ html_line ("Provider area: " ++ a) "p" ])
                       ++ [ html_line "User provided parameters:" "h4" ])
                      ++ [ html_line (dict_to_html_list py_str kept) "p" ])%list
                   written)
              else
                (Raise UnicodeEncodeError,
                 with_info_html
                   ((info_html w ++ [ html_line ("Provider area: " ++ a) "p" ])
                      ++ [ html_line "User provided parameters:" "h4" ])%list
                   written)
            else (Raise UnicodeEncodeError, written)
        | _ => (Raise TypeError, written)
        end
    end.
Proof.
  intros Hpath. cbv zeta.
  assert (Hhas : dict_has params "_provider" = true).
  { unfold provider_path in Hpath. unfold dict_has.
    destruct (dict_get params "_provider"); [ reflexivity | discriminate ]. }
  unfold process_parameters, load_parameters, write_csv_file,
    model_log_html_text, sbind, logging_info, modify, ret, lift.
  rewrite (provider_admin_area_of_found _ Hpath).
  unfold del_provider, dict_del. rewrite Hhas.
  rewrite write_csv_ignore by reflexivity.
  change (writeheader
            (params_writer
               (filter (fun kv => negb (String.eqb (fst kv) "_provider")) params))
          :: map (fun r =>
                    map (cell (params_writer
                                 (filter (fun kv => negb (String.eqb (fst kv) "_provider"))
                                         params)) r)
                        (fieldnames
                           (params_writer
                              (filter (fun kv => negb (String.eqb (fst kv) "_provider"))
                                      params))))
                 [ filter (fun kv => negb (String.eqb (fst kv) "_provider")) params ])
    with (params_table params).
  destruct (snd (encode_rows (params_table params))); [ reflexivity | ].
  destruct area; try reflexivity.
  cbn [str_concat].
  destruct (utf8_encodable (html_line ("Provider area: " ++ s) "p"));
    [ | reflexivity ].
  destruct (utf8_encodable
              (html_line
                 (dict_to_html_list py_str
                    (filter (fun kv => negb (String.eqb (fst kv) "_provider")) params))
                 "p"));
    reflexivity.
Qed.

End ParameterStage.

Lemma sbind_snd_kept {A B : Type} (R : world -> world -> Prop)
    (m : script A) (k : script B) :
  (forall w, R w w) -> keeps R k ->
  forall w, R (snd (m w)) (snd (sbind m (fun _ => k) w)).
Proof.
  intros Hrefl Hk w. unfold sbind.
  destruct (m w) as [[a | e] w1]; cbn [snd]; [ apply Hk | apply Hrefl ].
Qed.

Lemma run_snd_kept (main : script unit) (w : world) :
  params_stage_kept (snd (main w)) (snd (run main w)).
Proof.
  unfold run. destruct (main w) as [[[] | e] w1]; cbn [snd];
    [ apply params_stage_kept_refl | ].
  destruct e; split; try reflexivity; auto.
Qed.

(** C6: when the document has its provider path and the codec of the file
    accepts its keys and values, [params.csv] is written with the provider
    key gone: its header is the document's keys in their order without
    [_provider], its single data row gives every remaining key the value
    the document gave it, and the table is still that after the later
    stages; the extracted area, when it is a string the codec accepts,
    appears in the report line and nowhere in the table. *)
Theorem C6_provider_removed (py_str : json -> string) (now_html now_log : string)
    (params : dict) (area : json)
    (samples subadmins : file_state (list dict)) (w : world) :
  provider_path (JObj params) = Some area ->
  params_table_encodable params = true ->
  let out :=
    run (input_processing py_str now_html now_log (Parsed (JObj params))
           samples subadmins) w in
  exists header row,
    params_csv (snd out) = Some [ map JStr header; row ]
    /\ header
       = filter (fun k => negb (String.eqb k "_provider")) (dict_keys params)
    /\ ~ In "_provider" header
    /\ Forall2 (fun key c => dict_get params key = Some c) header row
    /\ (forall a, area = JStr a ->
                  utf8_encodable a = true ->
                  In (html_line ("Provider area: " ++ a) "p")
                     (info_html (snd out))).
Proof.
  intros Hpath Htable. cbv zeta.
  set (kept := filter (fun kv => negb (String.eqb (fst kv) "_provider")) params).
  exists (dict_keys kept), (map (cell (params_writer kept) kept) (dict_keys kept)).
  assert (Hheader : dict_keys kept
                    = filter (fun k => negb (String.eqb k "_provider"))
                             (dict_keys params))
    by apply dict_keys_filter.
  set (w0 := snd (setup now_html now_log w)).
  set (stage := process_parameters py_str (Parsed (JObj params)) w0).
  assert (Hkept : params_stage_kept (snd stage)
                    (snd (run (input_processing py_str now_html now_log
                                 (Parsed (JObj params)) samples subadmins) w))).
  { eapply params_stage_kept_trans; [ | apply run_snd_kept ].
    change (input_processing py_str now_html now_log (Parsed (JObj params))
              samples subadmins w)
      with (sbind (process_parameters py_str (Parsed (JObj params)))
              (fun _ => (process_samples py_str samples ;;;
                         process_subadmins subadmins)%script) w0).
    apply (sbind_snd_kept (R := params_stage_kept)).
    - apply params_stage_kept_refl.
    - apply (keeps_sbind params_stage_kept_trans);
        [ apply process_samples_kept | intros _; apply process_subadmins_kept ]. }
  assert (Hstage : params_csv (snd stage) = Some (params_table params)
                   /\ (forall a, area = JStr a ->
                                 utf8_encodable a = true ->
                                 In (html_line ("Provider area: " ++ a) "p")
                                    (info_html (snd stage)))).
  { unfold stage.
    rewrite (process_parameters_found py_str _ w0 Hpath).
    unfold params_table_encodable in Htable.
    rewrite (encode_rows_all _ Htable). cbn [fst snd].
    destruct area;
      try (split; [ reflexivity | intros a Ha; discriminate ]).
    destruct (utf8_encodable (html_line ("Provider area: " ++ s) "p")) eqn:Eline.
    - destruct (utf8_encodable
                  (html_line
                     (dict_to_html_list py_str
                        (filter (fun kv => negb (String.eqb (fst kv) "_provider"))
                                params)) "p"));
        (split; [ reflexivity | ]);
        intros a Ha _; inversion Ha; subst; cbn [snd info_html with_info_html].
      + apply in_or_app. left. apply in_or_app. left.
        apply in_or_app. right. left. reflexivity.
      + apply in_or_app. left. apply in_or_app. right. left. reflexivity.
    - split; [ reflexivity | ].
      intros a Ha Henc. inversion Ha; subst.
      rewrite (provider_line_encodable _ Henc) in Eline. discriminate. }
  destruct Hstage as [Hcsv Hline]. destruct Hkept as [Hsame Hgrow].
  split; [ rewrite Hsame; exact Hcsv | ].
  split; [ exact Hheader | ].
  split.
  - rewrite Hheader. intros Hin. apply filter_In in Hin.
    destruct Hin as [_ Hne]. discriminate.
  - split; [ apply params_row_unchanged | ].
    intros a Ha Henc. apply Hgrow. apply (Hline a Ha Henc).
Qed.

(** A document with two parameters around its provider. *)
Lemma C6_witness :
  provider_path (JObj example_params) = Some (JStr "New York")
  /\ params_table_encodable example_params = true
  /\ exists header row,
       params_csv
         (snd (run (input_processing (fun _ => "") "" ""
                      (Parsed (JObj example_params))
                      (Parsed [ example_s1 ]) (Parsed []))
                   empty_world))
       = Some [ map JStr header; row ]
       /\ header = [ "prevalence"; "season" ].
Proof.
  split; [ reflexivity | ].
  split; [ reflexivity | ].
  destruct (C6_provider_removed (fun _ => "") "" "" example_params
              (Parsed [ example_s1 ]) (Parsed []) empty_world eq_refl eq_refl)
    as [header [row [Hcsv [Hheader _]]]].
  exists header, row. split; [ exact Hcsv | exact Hheader ].
Defined.

(** ** The output script *)




(** * Further properties of the scripts *)

(** ** The sample loop, field by field *)

Lemma defaults_only_canonical (key : string) :
  ~ In key canonical_fields -> dict_get needed_keys_with_defaults key = None.
Proof.
  unfold canonical_fields, needed_keys_with_defaults. cbn [In dict_get].
  intros Hnot.
  repeat match goal with
         | |- context [String.eqb ?k key] =>
             destruct (String.eqb_spec k key) as [Heq | _];
             [ exfalso; apply Hnot; rewrite <- Heq; tauto | ]
         end.
  reflexivity.
Qed.

(** X1: in a normalized record [id] is the record's [_id] when it has one,
    and otherwise the [id] the record came with, or null; [_id] itself
    stays. *)
Theorem X1_identity_derivation (sample out : dict) :
  normalize_sample sample = Ok out ->
  dict_get out "id"
  = Some match dict_get sample "_id" with
         | Some v => v
         | None => field_or_null sample "id"
         end
  /\ dict_get out "_id" = dict_get sample "_id".
Proof.
  intros Hout.
  destruct (dict_get_normalized _ Hout) as [a [_ Hget]].
  split; rewrite Hget, dict_get_prepared; destruct a; cbn;
    try reflexivity;
    destruct (dict_get sample "_id"); reflexivity.
Qed.

Lemma X1_witness :
  normalize_sample example_s1 = Ok example_s1_normalized
  /\ dict_get example_s1_normalized "id" = Some (JStr "s1").
Proof.
  assert (H : normalize_sample example_s1 = Ok example_s1_normalized)
    by reflexivity.
  split; [ exact H | exact (proj1 (X1_identity_derivation _ H)) ].
Defined.

(** X2: normalization passes [species], [age_group], [sex] and
    [sample_source] through, null when the record lacks them, and changes no
    field outside the seven canonical ones: [_id], the nested area, [tests]
    and anything else the record carries are still there with their
    values. *)
Theorem X2_passthrough_and_frame (sample out : dict) :
  normalize_sample sample = Ok out ->
  Forall (fun key => dict_get out key = Some (field_or_null sample key))
         [ "species"; "age_group"; "sex"; "sample_source" ]
  /\ forall key,
       ~ In key canonical_fields -> dict_get out key = dict_get sample key.
Proof.
  intros Hout.
  destruct (dict_get_normalized _ Hout) as [a [_ Hget]].
  split.
  - repeat constructor; rewrite Hget, dict_get_prepared;
      destruct a; cbn; unfold field_or_null;
      match goal with
      | |- context [dict_get sample ?k] => destruct (dict_get sample k)
      end; reflexivity.
  - intros key Hnot.
    assert (Hresult : String.eqb "result" key = false).
    { destruct (String.eqb_spec "result" key) as [<- | _]; [ | reflexivity ].
      exfalso. apply Hnot. unfold canonical_fields. cbn. tauto. }
    assert (Harea : String.eqb "sub_administrative_area_id" key = false).
    { destruct (String.eqb_spec "sub_administrative_area_id" key) as [<- | _];
        [ | reflexivity ].
      exfalso. apply Hnot. unfold canonical_fields. cbn. tauto. }
    assert (Hid : String.eqb "id" key = false).
    { destruct (String.eqb_spec "id" key) as [<- | _]; [ | reflexivity ].
      exfalso. apply Hnot. unfold canonical_fields. cbn. tauto. }
    rewrite Hget, dict_get_prepared, Harea, Hid, (defaults_only_canonical Hnot).
    destruct a; rewrite ?Hresult; destruct (dict_get sample key); reflexivity.
Qed.

Lemma X2_witness :
  normalize_sample example_s1 = Ok example_s1_normalized
  /\ dict_get example_s1_normalized "species" = Some JNull
  /\ dict_get example_s1_normalized "tests" = dict_get example_s1 "tests".
Proof.
  assert (H : normalize_sample example_s1 = Ok example_s1_normalized)
    by reflexivity.
  split; [ exact H | ].
  split.
  - exact (Forall_inv (proj1 (X2_passthrough_and_frame _ H))).
  - apply (proj2 (X2_passthrough_and_frame _ H)).
    unfold canonical_fields. cbn. intuition discriminate.
Defined.

(** X3: when the tests are mappings and exactly one of them is definitive,
    the normalized [result] is that test's [result], whatever [result] the
    record came with; when that test has no [result] the block passes, and
    the record keeps its own [result], or the null of default-fill. *)
Theorem X3_single_definitive_result (sample : dict) (tests : list json)
    (d : dict) :
  dict_get sample "tests" = Some (JArr tests) ->
  forallb is_mapping tests = true ->
  filter definitive tests = [ JObj d ] ->
  exists out,
    normalize_sample sample = Ok out
    /\ dict_get out "result"
       = Some match dict_get d "result" with
              | Some r => r
              | None => field_or_null sample "result"
              end.
Proof. apply normalize_single_definitive. Qed.

Lemma X3_witness :
  exists out,
    normalize_sample example_s1 = Ok out
    /\ dict_get out "result" = Some (JStr "positive").
Proof.
  exact (X3_single_definitive_result example_s1
           (d := [ ("selected_definitive", JBool true);
                   ("result", JStr "positive") ])
           eq_refl eq_refl eq_refl).
Defined.

(** ** The order of the tests *)

Lemma filter_raising_cases (tests : list json) :
  filter_raising is_selected_definitive tests
  = if forallb filter_returns tests
    then Ok (filter filter_keeps tests)
    else Raise TypeError.
Proof.
  induction tests as [| t rest IH]; [ reflexivity | ].
  cbn [filter_raising forallb filter]. unfold filter_returns at 1, filter_keeps at 1.
  destruct (is_selected_definitive t) as [b | e] eqn:Et; cbn [bind andb].
  - rewrite IH. destruct (forallb filter_returns rest); reflexivity.
  - rewrite (is_selected_definitive_raises _ Et). reflexivity.
Qed.

Lemma forallb_Permutation {A : Type} (f : A -> bool) (l l' : list A) :
  Permutation l l' -> forallb f l = forallb f l'.
Proof.
  induction 1 as [| x l l' _ IH | x y l | l l' l'' _ IH1 _ IH2 ]; simpl.
  - reflexivity.
  - rewrite IH. reflexivity.
  - destruct (f x), (f y); reflexivity.
  - congruence.
Qed.

Lemma filter_Permutation {A : Type} (f : A -> bool) (l l' : list A) :
  Permutation l l' -> Permutation (filter f l) (filter f l').
Proof.
  induction 1 as [| x l l' _ IH | x y l | l l' l'' _ IH1 _ IH2 ]; simpl.
  - constructor.
  - destruct (f x); [ constructor; exact IH | exact IH ].
  - destruct (f x), (f y); try reflexivity. constructor.
  - eapply Permutation_trans; eassumption.
Qed.

Lemma result_assignment_Permutation (tests tests' : list json) :
  Permutation tests tests' ->
  result_assignment (Some (JArr tests)) = result_assignment (Some (JArr tests')).
Proof.
  intros Hperm. unfold result_assignment. cbn [py_len py_iter bind].
  rewrite <- (Permutation_length Hperm).
  destruct (Nat.ltb 0 (List.length tests)); [ | reflexivity ].
  rewrite !filter_raising_cases, <- (forallb_Permutation filter_returns Hperm).
  destruct (forallb filter_returns tests); [ | reflexivity ].
  cbn [bind].
  pose proof (filter_Permutation filter_keeps Hperm) as Hkept.
  rewrite <- (Permutation_length Hkept).
  destruct (filter filter_keeps tests) as [| t [| t' more]] eqn:Ekept;
    try reflexivity.
  apply Permutation_length_1_inv in Hkept. rewrite Hkept. reflexivity.
Qed.

(** X4: the row of a record does not depend on the order of its tests: two
    records that differ only in that order both raise the same exception or
    both normalize to records with the same seven cells. *)
Theorem X4_test_order_irrelevant (sample : dict) (tests tests' : list json) :
  Permutation tests tests' ->
  match normalize_sample (dict_set sample "tests" (JArr tests)),
        normalize_sample (dict_set sample "tests" (JArr tests')) with
  | Ok out, Ok out' => sample_row out = sample_row out'
  | Raise e, Raise e' => e = e'
  | _, _ => False
  end.
Proof.
  intros Hperm.
  rewrite !normalize_sample_spec, !dict_get_set_same.
  rewrite <- (result_assignment_Permutation Hperm).
  destruct (result_assignment (Some (JArr tests))) as [a | e]; cbn [bind];
    [ | reflexivity ].
  assert (Hcell : forall key,
             String.eqb "tests" key = false ->
             cell sample_writer
               (assign_result (prepared (dict_set sample "tests" (JArr tests))) a)
               key
             = cell sample_writer
                 (assign_result (prepared (dict_set sample "tests" (JArr tests'))) a)
                 key).
  { intros key Hkey. unfold cell.
    assert (Hprep : dict_get (prepared (dict_set sample "tests" (JArr tests))) key
                    = dict_get (prepared (dict_set sample "tests" (JArr tests'))) key).
    { rewrite !dict_get_prepared. unfold nested_area_id, field_or_null.
      rewrite !dict_get_set, Hkey. reflexivity. }
    destruct a as [r | ]; cbn [assign_result];
      rewrite ?dict_get_set, Hprep; reflexivity. }
  unfold sample_row, canonical_fields. cbn [map].
  rewrite !Hcell by reflexivity. reflexivity.
Qed.

Lemma X4_witness :
  match normalize_sample
          (dict_set example_s1 "tests"
             (JArr [ JObj [ ("selected_definitive", JBool true);
                            ("result", JStr "positive") ];
                     JObj [ ("selected_definitive", JBool false);
                            ("result", JStr "negative") ] ])),
        normalize_sample
          (dict_set example_s1 "tests"
             (JArr [ JObj [ ("selected_definitive", JBool false);
                            ("result", JStr "negative") ];
                     JObj [ ("selected_definitive", JBool true);
                            ("result", JStr "positive") ] ])) with
  | Ok out, Ok out' => sample_row out = sample_row out'
  | Raise e, Raise e' => e = e'
  | _, _ => False
  end.
Proof.
  apply X4_test_order_irrelevant. apply perm_swap.
Defined.

(** ** Normalizing twice *)

Lemma dict_set_same_value (d : dict) (key : string) (value : json) :
  dict_get d key = Some value -> dict_set d key value = d.
Proof.
  induction d as [| [k v] rest IH]; simpl; [ discriminate | ].
  destruct (String.eqb k key).
  - intros H. inversion H. reflexivity.
  - intros H. rewrite (IH H). reflexivity.
Qed.

Lemma add_missing_defaults_noop (d defaults : dict) :
  Forall (fun key => dict_has d key = true) (dict_keys defaults) ->
  add_missing_defaults_inplace d defaults = d.
Proof.
  induction defaults as [| [k v] rest IH]; simpl; [ reflexivity | ].
  intros H. inversion H as [| ? ? Hk Hrest]; subst.
  rewrite Hk. cbn [negb]. apply IH. exact Hrest.
Qed.

(** X5: the loop body is idempotent: run on a record it has already
    normalized, it returns that very record, keys and values in place. *)
Theorem X5_normalize_idempotent (sample out : dict) :
  normalize_sample sample = Ok out ->
  normalize_sample out = Ok out.
Proof.
  intros Hout.
  destruct (dict_get_normalized _ Hout) as [a [Ha Hget]].
  assert (Hother : forall key,
             String.eqb "result" key = false ->
             dict_get out key = dict_get (prepared sample) key).
  { intros key Hne. rewrite Hget. destruct a; rewrite ?Hne; reflexivity. }
  assert (Hid : dict_get out "_id" = dict_get sample "_id").
  { rewrite Hother, dict_get_prepared by reflexivity. cbn.
    destruct (dict_get sample "_id"); reflexivity. }
  assert (Harea : nested_area_id out = nested_area_id sample).
  { unfold nested_area_id.
    rewrite Hother, dict_get_prepared by reflexivity. cbn.
    destruct (dict_get sample "_sub_administrative_area"); reflexivity. }
  assert (Htests : dict_get out "tests" = dict_get sample "tests").
  { rewrite Hother, dict_get_prepared by reflexivity. cbn.
    destruct (dict_get sample "tests"); reflexivity. }
  unfold normalize_sample.
  rewrite add_missing_defaults_noop
    by exact (normalized_has_canonical_fields _ Hout).
  rewrite set_id_spec, Hid. cbn [bind].
  assert (Hid' : match dict_get sample "_id" with
                 | Some v => dict_set out "id" v
                 | None => out
                 end = out).
  { destruct (dict_get sample "_id") as [v | ] eqn:E; [ | reflexivity ].
    apply dict_set_same_value.
    rewrite Hother, dict_get_prepared, E by reflexivity. reflexivity. }
  rewrite Hid'.
  rewrite set_sub_administrative_area_id_spec, Harea. cbn [bind].
  assert (Harea' : match nested_area_id sample with
                   | Some v => dict_set out "sub_administrative_area_id" v
                   | None => out
                   end = out).
  { destruct (nested_area_id sample) as [v | ] eqn:E; [ | reflexivity ].
    apply dict_set_same_value.
    rewrite Hother, dict_get_prepared, E by reflexivity. reflexivity. }
  rewrite Harea'.
  rewrite set_result_spec, Htests, Ha. cbn [bind].
  destruct a as [r | ]; cbn [assign_result]; [ | reflexivity ].
  f_equal. apply dict_set_same_value.
  rewrite Hget. reflexivity.
Qed.

Lemma X5_witness :
  normalize_sample example_s1 = Ok example_s1_normalized
  /\ normalize_sample example_s1_normalized = Ok example_s1_normalized.
Proof.
  assert (H : normalize_sample example_s1 = Ok example_s1_normalized)
    by reflexivity.
  split; [ exact H | exact (X5_normalize_idempotent _ H) ].
Defined.

(** ** The stages of the input script, one after the other *)

Lemma normalize_sample_unsized (sample : dict) :
  tests_unsized sample = true -> normalize_sample sample = Raise TypeError.
Proof.
  rewrite normalize_sample_spec. unfold tests_unsized.
  destruct (dict_get sample "tests") as [ [] | ]; try discriminate;
    reflexivity.
Qed.

Lemma normalize_samples_unsized (samples : list dict) :
  Exists (fun s => tests_unsized s = true) samples ->
  normalize_samples samples = Raise TypeError.
Proof.
  unfold normalize_samples.
  induction 1 as [s rest Hs | s rest _ IH]; cbn [map_raising].
  - rewrite (normalize_sample_unsized _ Hs). reflexivity.
  - pose proof (normalize_sample_cases s) as Hcases.
    destruct (normalize_sample s) as [out | e]; cbn [bind].
    + rewrite IH. reflexivity.
    + destruct Hcases as [-> _]. reflexivity.
Qed.

Lemma map_set_subadmin_id (subadmins : list dict) :
  map_raising set_subadmin_id subadmins
  = Ok (map (fun s => match dict_get s "_id" with
                      | Some v => dict_set s "id" v
                      | None => s
                      end) subadmins).
Proof.
  induction subadmins as [| s rest IH]; [ reflexivity | ].
  cbn [map_raising map]. rewrite IH.
  unfold set_subadmin_id, py_getitem.
  destruct (dict_get s "_id"); reflexivity.
Qed.

Lemma subadmin_row_spec (s : dict) :
  map (cell sub_administrative_area_writer
            match dict_get s "_id" with
            | Some v => dict_set s "id" v
            | None => s
            end)
      (fieldnames sub_administrative_area_writer)
  = subadmin_row s.
Proof.
  unfold subadmin_row, cell. cbn [map fieldnames sub_administrative_area_writer].
  destruct (dict_get s "_id") as [v | ]; [ | reflexivity ].
  rewrite !dict_get_set. reflexivity.
Qed.

Section Stages.

Variable py_str : json -> string.
Variables now_html now_log : string.

Lemma input_processing_stages (params_json : file_state json)
    (sample_ndjson sub_administrative_area_ndjson : file_state (list dict))
    (w : world) :
  input_processing py_str now_html now_log params_json sample_ndjson
    sub_administrative_area_ndjson w
  = match process_parameters py_str params_json (snd (setup now_html now_log w)) with
    | (Ok _, w1) =>
        match process_samples py_str sample_ndjson w1 with
        | (Ok _, w2) => process_subadmins sub_administrative_area_ndjson w2
        | (Raise e, w2) => (Raise e, w2)
        end
    | (Raise e, w1) => (Raise e, w1)
    end.
Proof. reflexivity. Qed.

Lemma process_samples_absent (sample_ndjson : file_state (list dict)) (w : world) :
  (forall samples, sample_ndjson <> Parsed samples) ->
  process_samples py_str sample_ndjson w
  = (Raise (SystemExit 1),
     with_info_html
       ((info_html w ++ [ html_line "ERROR" "h4" ])
          ++ [ html_line
                 "Samples (sample.ndjson) file not found. Sample data are required to run this model. Execution halted."
                 "p" ])%list
       (with_execution_log
          (execution_log w ++ [ LogError "samples.ndjson file does not exist." ])%list
          w)).
Proof.
  intros Habsent.
  destruct sample_ndjson as [ | | samples ]; try reflexivity.
  exfalso. apply (Habsent samples). reflexivity.
Qed.

Lemma process_samples_raises (samples : list dict) (e : exn) (w : world) :
  normalize_samples samples = Raise e ->
  process_samples py_str (Parsed samples) w
  = (Raise e,
     with_info_html
       ((info_html w ++ [ html_line "Warehouse data provided to model" "h4" ])
          ++ [ html_line
                 ("Samples: " ++ py_str (JInt (Z.of_nat (List.length samples))))
                 "p" ])%list
       (with_execution_log
          (execution_log w ++ [ LogInfo "Sample file loaded successfully" ])%list
          w)).
Proof.
  intros Hraise.
  unfold process_samples, load_samples, sbind, logging_info, model_log_html,
    modify, ret, lift.
  rewrite Hraise. reflexivity.
Qed.

Lemma process_samples_written (samples : list dict) (tbl : table) (w : world) :
  tabulate_samples samples = Ok tbl ->
  process_samples py_str (Parsed samples) w
  = (Ok tt,
     with_sample_csv tbl
       (with_info_html
          ((info_html w ++ [ html_line "Warehouse data provided to model" "h4" ])
             ++ [ html_line
                    ("Samples: " ++ py_str (JInt (Z.of_nat (List.length samples))))
                    "p" ])%list
          (with_execution_log
             (execution_log w ++ [ LogInfo "Sample file loaded successfully" ])%list
             w))).
Proof.
  unfold tabulate_samples. intros Htab.
  unfold process_samples, load_samples, write_csv_file, sbind, logging_info,
    model_log_html, modify, ret, lift.
  destruct (normalize_samples samples) as [normalized | e]; cbn [bind] in Htab;
    [ | discriminate ].
  destruct (write_csv sample_writer normalized) as [full | e]; cbn [bind] in Htab;
    [ | discriminate ].
  destruct (snd (encode_rows full)); [ discriminate | ].
  inversion Htab; subst. reflexivity.
Qed.

(** The sample stage when the codec refuses a row: the file keeps what was
    written before it. *)
Lemma process_samples_refused (samples normalized : list dict)
    (kept : table) (w : world) :
  normalize_samples samples = Ok normalized ->
  encode_rows (map JStr canonical_fields :: map sample_row normalized)
  = (kept, Some UnicodeEncodeError) ->
  process_samples py_str (Parsed samples) w
  = (Raise UnicodeEncodeError,
     with_sample_csv kept
       (with_info_html
          ((info_html w ++ [ html_line "Warehouse data provided to model" "h4" ])
             ++ [ html_line
                    ("Samples: " ++ py_str (JInt (Z.of_nat (List.length samples))))
                    "p" ])%list
          (with_execution_log
             (execution_log w ++ [ LogInfo "Sample file loaded successfully" ])%list
             w))).
Proof.
  intros Hnorm Hrows.
  unfold process_samples, load_samples, write_csv_file, sbind, logging_info,
    model_log_html, modify, ret, lift.
  rewrite Hnorm. rewrite write_csv_ignore by reflexivity.
  change (writeheader sample_writer
          :: map (fun r => map (cell sample_writer r) (fieldnames sample_writer))
                 normalized)
    with (map JStr canonical_fields :: map sample_row normalized).
  rewrite Hrows. reflexivity.
Qed.

Lemma process_subadmins_absent
    (sub_administrative_area_ndjson : file_state (list dict)) (w : world) :
  (forall subadmins, sub_administrative_area_ndjson <> Parsed subadmins) ->
  process_subadmins sub_administrative_area_ndjson w
  = (Raise (SystemExit 1),
     with_info_html
       ((info_html w ++ [ html_line "ERROR" "h4" ])
          ++ [ html_line
                 "Sub-administrative areas (sub_administrative_area.json) file not found."
                 "p" ])%list
       (with_execution_log
          (execution_log w
             ++ [ LogError "sub_administrative_area.json File does not exist." ])%list
          w)).
Proof.
  intros Habsent.
  destruct sub_administrative_area_ndjson as [ | | subadmins ]; try reflexivity.
  exfalso. apply (Habsent subadmins). reflexivity.
Qed.

Lemma process_subadmins_rows (subadmins : list dict) (w : world) :
  process_subadmins (Parsed subadmins) w
  = let tbl := map JStr [ "id"; "full_name" ] :: map subadmin_row subadmins in
    let written :=
      with_sub_administrative_area_csv (fst (encode_rows tbl))
        (with_execution_log
           (execution_log w
              ++ [ LogInfo "Sub-administrative area file loaded successfully" ])%list
           w) in
    match snd (encode_rows tbl) with
    | Some e => (Raise e, written)
    | None =>
        (Ok tt,
         with_execution_log
           ((execution_log w
               ++ [ LogInfo "Sub-administrative area file loaded successfully" ])
              ++ [ LogInfo "Model input processing successfully completed." ])%list
           written)
    end.
Proof.
  unfold process_subadmins, load_subadmins, write_csv_file, sbind,
    logging_info, modify, ret, lift.
  rewrite map_set_subadmin_id.
  rewrite write_csv_ignore by reflexivity.
  rewrite map_map.
  rewrite (map_ext _ _ subadmin_row_spec).
  cbv zeta.
  change (writeheader sub_administrative_area_writer)
    with (map JStr [ "id"; "full_name" ]).
  destruct (snd (encode_rows
                   (map JStr [ "id"; "full_name" ] :: map subadmin_row subadmins)));
    reflexivity.
Qed.

Lemma process_subadmins_written (subadmins : list dict) (w : world) :
  subadmins_encodable subadmins = true ->
  process_subadmins (Parsed subadmins) w
  = (Ok tt,
     with_execution_log
       ((execution_log w
           ++ [ LogInfo "Sub-administrative area file loaded successfully" ])
          ++ [ LogInfo "Model input processing successfully completed." ])%list
       (with_sub_administrative_area_csv
          (map JStr [ "id"; "full_name" ] :: map subadmin_row subadmins)
          w)).
Proof.
  intros Henc. rewrite process_subadmins_rows. cbv zeta.
  rewrite encode_rows_all; [ reflexivity | ].
  cbn [forallb]. exact Henc.
Qed.

Lemma process_parameters_reported (params : dict) (a : string) (w : world) :
  provider_path (JObj params) = Some (JStr a) ->
  params_writable py_str params a = true ->
  process_parameters py_str (Parsed (JObj params)) w
  = (Ok tt,
     with_info_html
       (((info_html w ++ [ html_line ("Provider area: " ++ a) "p" ])
           ++ [ html_line "User provided parameters:" "h4" ])
          ++ [ html_line
                 (dict_to_html_list py_str
                    (filter (fun kv => negb (String.eqb (fst kv) "_provider"))
                            params))
                 "p" ])%list
       (with_params_csv (params_table params)
          (with_execution_log
             (execution_log w
                ++ [ LogInfo "Parameter file loaded successfully" ])%list
             w))).
Proof.
  intros Hpath Hwritable.
  unfold params_writable in Hwritable.
  apply andb_prop in Hwritable. destruct Hwritable as [Hwritable Hlisting].
  apply andb_prop in Hwritable. destruct Hwritable as [Htable Harea].
  rewrite (process_parameters_found py_str _ w Hpath).
  unfold params_table_encodable in Htable.
  rewrite (encode_rows_all _ Htable). cbn [fst snd].
  rewrite (provider_line_encodable _ Harea).
  rewrite (html_line_encodable _ Hlisting). reflexivity.
Qed.

End Stages.

Lemma tabulate_samples_well_formed (samples : list dict) :
  Forall (fun s => tests_well_formed s = true) samples ->
  Forall (fun s => sample_encodable s = true) samples ->
  exists tbl,
    tabulate_samples samples = Ok tbl
    /\ List.length tbl = S (List.length samples).
Proof.
  intros Hwf Henc.
  destruct (normalize_samples_well_formed Hwf) as [normalized [Hnorm Hall]].
  rewrite (tabulate_samples_encodable _ Hnorm
             (normalized_rows_encodable Hwf Henc Hall)).
  eexists. split; [ reflexivity | ].
  cbn [List.length]. rewrite length_map, (Forall2_length Hall). reflexivity.
Qed.

Lemma encode_rows_refused (before after : table) (row : list json) :
  forallb row_encodable before = true ->
  row_encodable row = false ->
  encode_rows (before ++ row :: after)%list = (before, Some UnicodeEncodeError).
Proof.
  intros Hbefore Hrow.
  induction before as [| r rest IH]; cbn [app encode_rows forallb] in *.
  - rewrite Hrow. reflexivity.
  - apply andb_prop in Hbefore. destruct Hbefore as [Hr Hrest].
    rewrite Hr, (IH Hrest). reflexivity.
Qed.

(** X6: with a parameters document whose texts the codec accepts, one record
    whose [tests] is null, a boolean or a number, anywhere in the batch,
    ends the run with an uncaught [TypeError]: status 1, the exception in
    the log, no error entry in the report, no sample table and no sub-area
    table, while the parameter table is already written. *)
Theorem X6_unsized_tests_stop_the_run (py_str : json -> string)
    (now_html now_log : string) (params : dict) (a : string)
    (samples : list dict) (subadmins : file_state (list dict)) (w : world) :
  provider_path (JObj params) = Some (JStr a) ->
  params_writable py_str params a = true ->
  Exists (fun s => tests_unsized s = true) samples ->
  let out :=
    run (input_processing py_str now_html now_log (Parsed (JObj params))
           (Parsed samples) subadmins) w in
  fst out = 1%Z
  /\ last_record (execution_log (snd out)) = Some (LogUncaught TypeError)
  /\ error_entries (info_html (snd out)) = 0
  /\ params_csv (snd out) = Some (params_table params)
  /\ sample_csv (snd out) = sample_csv w
  /\ sub_administrative_area_csv (snd out) = sub_administrative_area_csv w.
Proof.
  intros Hpath Hwritable Hbad. cbv zeta. unfold run.
  rewrite input_processing_stages.
  rewrite (process_parameters_reported py_str _ _ Hpath Hwritable).
  cbv beta iota.
  rewrite (process_samples_raises py_str _ _ (normalize_samples_unsized Hbad)).
  cbv beta iota.
  repeat split; reflexivity.
Qed.

Lemma X6_witness :
  fst (run (input_processing (fun _ => "") "" "" (Parsed (JObj example_params))
              (Parsed [ example_s1; [ ("tests", JNull) ] ]) (Parsed []))
           empty_world) = 1%Z.
Proof.
  refine (proj1 (X6_unsized_tests_stop_the_run (fun _ => "") "" ""
                   example_params (a := "New York")
                   (samples := [ example_s1; [ ("tests", JNull) ] ])
                   (Parsed []) empty_world eq_refl eq_refl _)).
  apply Exists_cons_tl. apply Exists_cons_hd. reflexivity.
Defined.

(** X7: with a parameters document whose texts the codec accepts and the
    samples file absent or undecodable the run halts with status 1 after
    the parameter table is written: the report gains one error entry and
    ends with the message about the samples, the log ends with the error,
    and neither the sample table nor the sub-area table is written. *)
Theorem X7_missing_samples_halt (py_str : json -> string)
    (now_html now_log : string) (params : dict) (a : string)
    (sample_ndjson subadmins : file_state (list dict)) (w : world) :
  provider_path (JObj params) = Some (JStr a) ->
  params_writable py_str params a = true ->
  (forall samples, sample_ndjson <> Parsed samples) ->
  let out :=
    run (input_processing py_str now_html now_log (Parsed (JObj params))
           sample_ndjson subadmins) w in
  fst out = 1%Z
  /\ last_record (execution_log (snd out))
     = Some (LogError "samples.ndjson file does not exist.")
  /\ error_entries (info_html (snd out)) = 1
  /\ List.last (info_html (snd out)) ""
     = html_line
         "Samples (sample.ndjson) file not found. Sample data are required to run this model. Execution halted."
         "p"
  /\ params_csv (snd out) = Some (params_table params)
  /\ sample_csv (snd out) = sample_csv w
  /\ sub_administrative_area_csv (snd out) = sub_administrative_area_csv w.
Proof.
  intros Hpath Hwritable Habsent. cbv zeta. unfold run.
  rewrite input_processing_stages.
  rewrite (process_parameters_reported py_str _ _ Hpath Hwritable).
  cbv beta iota.
  rewrite (process_samples_absent py_str _ Habsent). cbv beta iota.
  repeat split; reflexivity.
Qed.

Lemma X7_witness :
  fst (run (input_processing (fun _ => "") "" "" (Parsed (JObj example_params))
              Missing (Parsed []))
           empty_world) = 1%Z.
Proof.
  refine (proj1 (X7_missing_samples_halt (fun _ => "") "" ""
                   example_params (a := "New York")
                   (sample_ndjson := Missing)
                   (Parsed []) empty_world eq_refl eq_refl _)).
  intros samples. discriminate.
Defined.

(** X8: with a parameters document and well-formed samples whose texts the
    codec accepts and the sub-area file absent or undecodable the run halts
    with status 1 after two tables are written: the parameter table and the
    sample table stay, the sub-area table is not written, and the report
    holds one error entry. *)
Theorem X8_missing_subadmins_halt (py_str : json -> string)
    (now_html now_log : string) (params : dict) (a : string)
    (samples : list dict) (sub_administrative_area_ndjson : file_state (list dict))
    (w : world) :
  provider_path (JObj params) = Some (JStr a) ->
  params_writable py_str params a = true ->
  Forall (fun s => tests_well_formed s = true) samples ->
  Forall (fun s => sample_encodable s = true) samples ->
  (forall subadmins, sub_administrative_area_ndjson <> Parsed subadmins) ->
  let out :=
    run (input_processing py_str now_html now_log (Parsed (JObj params))
           (Parsed samples) sub_administrative_area_ndjson) w in
  fst out = 1%Z
  /\ last_record (execution_log (snd out))
     = Some (LogError "sub_administrative_area.json File does not exist.")
  /\ error_entries (info_html (snd out)) = 1
  /\ params_csv (snd out) = Some (params_table params)
  /\ (exists tbl,
        tabulate_samples samples = Ok tbl
        /\ sample_csv (snd out) = Some tbl)
  /\ sub_administrative_area_csv (snd out) = sub_administrative_area_csv w.
Proof.
  intros Hpath Hwritable Hwf Henc Habsent. cbv zeta. unfold run.
  destruct (tabulate_samples_well_formed Hwf Henc) as [tbl [Htab _]].
  rewrite input_processing_stages.
  rewrite (process_parameters_reported py_str _ _ Hpath Hwritable).
  cbv beta iota.
  rewrite (process_samples_written py_str _ _ Htab). cbv beta iota.
  rewrite (process_subadmins_absent _ Habsent). cbv beta iota.
  repeat split; try reflexivity.
  exists tbl. split; [ exact Htab | reflexivity ].
Qed.

Lemma X8_witness :
  fst (run (input_processing (fun _ => "") "" "" (Parsed (JObj example_params))
              (Parsed [ example_s1 ]) Unparseable)
           empty_world) = 1%Z.
Proof.
  refine (proj1 (X8_missing_subadmins_halt (fun _ => "") "" ""
                   example_params (a := "New York")
                   (samples := [ example_s1 ])
                   (sub_administrative_area_ndjson := Unparseable)
                   empty_world eq_refl eq_refl _ _ _)).
  - repeat constructor.
  - repeat constructor.
  - intros subadmins. discriminate.
Defined.

(** X9: with the provider area a string, every sample well-formed, the
    sub-area file decoded and every text to be written one the codec
    accepts, the run ends with status 0: the three tables are written, the
    sample table with one row per record under its header and the sub-area
    table with one row per sub-area; the report holds no error entry and
    the log ends with the record of completion. *)
Theorem X9_successful_run (py_str : json -> string)
    (now_html now_log : string) (params : dict) (a : string)
    (samples subadmins : list dict) (w : world) :
  provider_path (JObj params) = Some (JStr a) ->
  params_writable py_str params a = true ->
  Forall (fun s => tests_well_formed s = true) samples ->
  Forall (fun s => sample_encodable s = true) samples ->
  subadmins_encodable subadmins = true ->
  let out :=
    run (input_processing py_str now_html now_log (Parsed (JObj params))
           (Parsed samples) (Parsed subadmins)) w in
  fst out = 0%Z
  /\ params_csv (snd out) = Some (params_table params)
  /\ (exists tbl,
        tabulate_samples samples = Ok tbl
        /\ List.length tbl = S (List.length samples)
        /\ sample_csv (snd out) = Some tbl)
  /\ sub_administrative_area_csv (snd out)
     = Some (map JStr [ "id"; "full_name" ] :: map subadmin_row subadmins)
  /\ error_entries (info_html (snd out)) = 0
  /\ last_record (execution_log (snd out))
     = Some (LogInfo "Model input processing successfully completed.").
Proof.
  intros Hpath Hwritable Hwf Henc Hsub. cbv zeta. unfold run.
  destruct (tabulate_samples_well_formed Hwf Henc) as [tbl [Htab Hlen]].
  rewrite input_processing_stages.
  rewrite (process_parameters_reported py_str _ _ Hpath Hwritable).
  cbv beta iota.
  rewrite (process_samples_written py_str _ _ Htab). cbv beta iota.
  rewrite (process_subadmins_written _ _ Hsub). cbv beta iota.
  repeat split; try reflexivity.
  exists tbl. repeat split; [ exact Htab | exact Hlen ].
Qed.

Lemma X9_witness :
  fst (run (input_processing (fun _ => "") "" "" (Parsed (JObj example_params))
              (Parsed [ example_s1; example_s2 ])
              (Parsed [ [ ("_id", JStr "a1"); ("full_name", JStr "Tompkins") ] ]))
           empty_world) = 0%Z.
Proof.
  refine (proj1 (X9_successful_run (fun _ => "") "" ""
                   example_params (a := "New York")
                   (samples := [ example_s1; example_s2 ])
                   [ [ ("_id", JStr "a1"); ("full_name", JStr "Tompkins") ] ]
                   empty_world eq_refl eq_refl _ _ eq_refl)).
  - repeat constructor.
  - repeat constructor.
Defined.

(** X10: when the administrative area under the provider is there but is
    not a string, and the codec accepts the keys and values of the document,
    the parameter table is written and the run then dies on the report line
    that concatenates the area: status 1 with an uncaught [TypeError] in the
    log, no provider line and no error entry in the report, and no sample
    table. *)
Theorem X10_area_not_a_string (py_str : json -> string)
    (now_html now_log : string) (params : dict) (area : json)
    (samples subadmins : file_state (list dict)) (w : world) :
  provider_path (JObj params) = Some area ->
  (forall a, area <> JStr a) ->
  params_table_encodable params = true ->
  let out :=
    run (input_processing py_str now_html now_log (Parsed (JObj params))
           samples subadmins) w in
  fst out = 1%Z
  /\ last_record (execution_log (snd out)) = Some (LogUncaught TypeError)
  /\ info_html (snd out)
     = [ html_line "Model Execution Summary" "h3";
         html_line "Model: Prevalence Estimator Data Export" "p";
         html_line ("Date: " ++ now_html ++ " GMT") "p" ]
  /\ params_csv (snd out) = Some (params_table params)
  /\ sample_csv (snd out) = sample_csv w
  /\ sub_administrative_area_csv (snd out) = sub_administrative_area_csv w.
Proof.
  intros Hpath Hnot Htable. cbv zeta. unfold run.
  rewrite input_processing_stages.
  rewrite (process_parameters_found py_str _ _ Hpath).
  unfold params_table_encodable in Htable.
  rewrite (encode_rows_all _ Htable). cbn [fst snd].
  destruct area; try (cbv beta iota zeta; repeat split; reflexivity).
  exfalso. apply (Hnot s). reflexivity.
Qed.

Lemma X10_witness :
  fst (run (input_processing (fun _ => "") "" ""
              (Parsed (JObj [ ("_provider",
                               JObj [ ("_administrative_area",
                                       JObj [ ("administrative_area", JInt 36) ]) ]) ]))
              (Parsed [ example_s1 ]) (Parsed []))
           empty_world) = 1%Z.
Proof.
  refine (proj1 (X10_area_not_a_string (fun _ => "") "" ""
                   [ ("_provider",
                      JObj [ ("_administrative_area",
                              JObj [ ("administrative_area", JInt 36) ]) ]) ]
                   (area := JInt 36)
                   (Parsed [ example_s1 ]) (Parsed []) empty_world eq_refl _
                   eq_refl)).
  intros a. discriminate.
Defined.

(** X11: the sub-area loop never raises, and the rows handed to the writer
    are the header [id], [full_name] and one row per sub-area: first the
    [_id] of the record, or the [id] it came with, or a blank when it has
    neither (no null is filled in as for samples); then its [full_name],
    or a blank.  When the codec accepts every cell the stage writes these
    rows and returns; when a row holds a string it refuses, the file keeps
    the header and the rows before that one and the stage raises
    [UnicodeEncodeError]. *)
Theorem X11_sub_area_table (subadmins : list dict) :
  (exists normalized,
     map_raising set_subadmin_id subadmins = Ok normalized
     /\ write_csv sub_administrative_area_writer normalized
        = Ok (map JStr [ "id"; "full_name" ] :: map subadmin_row subadmins))
  /\ Forall (fun row => List.length row = 2) (map subadmin_row subadmins)
  /\ subadmin_row [] = [ JStr ""; JStr "" ]
  /\ (subadmins_encodable subadmins = true ->
      forall w,
        fst (process_subadmins (Parsed subadmins) w) = Ok tt
        /\ sub_administrative_area_csv (snd (process_subadmins (Parsed subadmins) w))
           = Some (map JStr [ "id"; "full_name" ] :: map subadmin_row subadmins))
  /\ (forall before refused after,
        subadmins = (before ++ refused :: after)%list ->
        subadmins_encodable before = true ->
        row_encodable (subadmin_row refused) = false ->
        forall w,
          fst (process_subadmins (Parsed subadmins) w) = Raise UnicodeEncodeError
          /\ sub_administrative_area_csv
               (snd (process_subadmins (Parsed subadmins) w))
             = Some (map JStr [ "id"; "full_name" ] :: map subadmin_row before)).
Proof.
  split; [ | split; [ | split; [ reflexivity | split ] ] ].
  - eexists. split; [ apply map_set_subadmin_id | ].
    rewrite write_csv_ignore by reflexivity.
    rewrite map_map, (map_ext _ _ subadmin_row_spec). reflexivity.
  - apply Forall_forall. intros row Hin.
    apply in_map_iff in Hin. destruct Hin as [s [<- _]]. reflexivity.
  - intros Henc w. rewrite (process_subadmins_written _ w Henc).
    split; reflexivity.
  - intros before refused after -> Hbefore Hrefused w.
    assert (Hrows :
              encode_rows
                (map JStr [ "id"; "full_name" ]
                 :: map subadmin_row (before ++ refused :: after)%list)
              = (map JStr [ "id"; "full_name" ] :: map subadmin_row before,
                 Some UnicodeEncodeError)).
    { rewrite map_app. cbn [map].
      apply (encode_rows_refused
               (map JStr [ "id"; "full_name" ] :: map subadmin_row before)
               (map subadmin_row after) (subadmin_row refused));
        [ | exact Hrefused ].
      cbn [forallb]. exact Hbefore. }
    rewrite process_subadmins_rows. cbv zeta.
    rewrite Hrows. split; reflexivity.
Qed.

(** A sub-area with a name the codec accepts, and one after it whose name
    holds a lone surrogate. *)
Lemma X11_witness :
  sub_administrative_area_csv
    (snd (process_subadmins (Parsed [ example_subadmin; refused_subadmin ])
            empty_world))
  = Some [ [ JStr "id"; JStr "full_name" ]; [ JStr "a1"; JStr "Tompkins" ] ].
Proof.
  pose proof (X11_sub_area_table [ example_subadmin; refused_subadmin ])
    as [_ [_ [_ [_ Hrefused]]]].
  exact (proj2 (Hrefused [ example_subadmin ] refused_subadmin []
                  eq_refl eq_refl eq_refl empty_world)).
Defined.

(** ** A sample the codec refuses *)

Lemma normalize_samples_each (samples normalized : list dict) :
  Forall2 (fun s out => normalize_sample s = Ok out) samples normalized ->
  normalize_samples samples = Ok normalized.
Proof.
  unfold normalize_samples.
  induction 1 as [| s out rest outs Hout _ IH]; [ reflexivity | ].
  cbn [map_raising]. rewrite Hout. cbn [bind]. rewrite IH. reflexivity.
Qed.

Lemma normalized_row_refused (sample out : dict) (key text : string) :
  normalize_sample sample = Ok out ->
  In key passthrough_fields ->
  dict_get sample key = Some (JStr text) ->
  utf8_encodable text = false ->
  row_encodable (sample_row out) = false.
Proof.
  intros Hout Hkey Hfield Htext.
  destruct (dict_get_normalized _ Hout) as [a [_ Hget]].
  assert (Hcell : dict_get out key = Some (JStr text)).
  { rewrite Hget, dict_get_prepared.
    unfold passthrough_fields in Hkey. cbn [In] in Hkey.
    destruct Hkey as [<- | [<- | [<- | [<- | []]]]];
      destruct a; cbn; rewrite Hfield; reflexivity. }
  destruct (row_encodable (sample_row out)) eqn:Erow; [ | reflexivity ].
  unfold row_encodable in Erow. rewrite forallb_forall in Erow.
  assert (Hin : In (JStr text) (sample_row out)).
  { unfold sample_row. apply in_map_iff. exists key. split.
    - unfold cell. rewrite Hcell. reflexivity.
    - unfold passthrough_fields in Hkey. unfold canonical_fields.
      cbn [In] in *. tauto. }
  specialize (Erow _ Hin). cbn [cell_encodable] in Erow. congruence.
Qed.

(** X18: with a parameters document whose texts the codec accepts and every
    [tests] well-formed, the first sample with a species, age group, sex or
    sample source that the codec refuses ends the run while the sample
    table is written: status 1 with an uncaught [UnicodeEncodeError] in the
    log and no error entry in the report; [sample.csv] is left with its
    header and the rows of the samples before that one, and the sub-area
    table is not written. *)
Theorem X18_refused_sample_stops_the_run (py_str : json -> string)
    (now_html now_log : string) (params : dict) (a : string)
    (before after : list dict) (refused : dict) (key text : string)
    (subadmins : file_state (list dict)) (w : world) :
  provider_path (JObj params) = Some (JStr a) ->
  params_writable py_str params a = true ->
  Forall (fun s => tests_well_formed s = true)
         (before ++ refused :: after)%list ->
  Forall (fun s => sample_encodable s = true) before ->
  In key passthrough_fields ->
  dict_get refused key = Some (JStr text) ->
  utf8_encodable text = false ->
  let out :=
    run (input_processing py_str now_html now_log (Parsed (JObj params))
           (Parsed (before ++ refused :: after)%list) subadmins) w in
  fst out = 1%Z
  /\ last_record (execution_log (snd out))
     = Some (LogUncaught UnicodeEncodeError)
  /\ error_entries (info_html (snd out)) = 0
  /\ params_csv (snd out) = Some (params_table params)
  /\ (exists tbl,
        tabulate_samples before = Ok tbl
        /\ List.length tbl = S (List.length before)
        /\ sample_csv (snd out) = Some tbl)
  /\ sub_administrative_area_csv (snd out) = sub_administrative_area_csv w.
Proof.
  intros Hpath Hwritable Hwf Henc Hkey Hfield Htext. cbv zeta. unfold run.
  destruct (normalize_samples_well_formed Hwf) as [normalized [Hnorm Hall]].
  apply Forall2_app_inv_l in Hall.
  destruct Hall as [nbefore [nrest [Hbefore [Hrest ->]]]].
  inversion Hrest as [| ? out ? nafter Hout Hafter]; subst.
  apply Forall_app in Hwf. destruct Hwf as [Hwfb _].
  pose proof (normalized_rows_encodable Hwfb Henc Hbefore) as Hrows.
  pose proof (normalized_row_refused _ Hout Hkey Hfield Htext) as Hrow.
  assert (Hencode :
            encode_rows
              (map JStr canonical_fields
               :: map sample_row (nbefore ++ out :: nafter)%list)
            = (map JStr canonical_fields :: map sample_row nbefore,
               Some UnicodeEncodeError)).
  { rewrite map_app. cbn [map].
    apply (encode_rows_refused
             (map JStr canonical_fields :: map sample_row nbefore)
             (map sample_row nafter) (sample_row out));
      [ | exact Hrow ].
    cbn [forallb]. exact Hrows. }
  rewrite input_processing_stages.
  rewrite (process_parameters_reported py_str _ _ Hpath Hwritable).
  cbv beta iota.
  rewrite (process_samples_refused py_str _ _ Hnorm Hencode).
  cbv beta iota.
  repeat split; try reflexivity.
  exists (map JStr canonical_fields :: map sample_row nbefore).
  split; [ | split; [ | reflexivity ] ].
  - apply tabulate_samples_encodable;
      [ apply normalize_samples_each; exact Hbefore | exact Hrows ].
  - cbn [List.length]. rewrite length_map, (Forall2_length Hbefore).
    reflexivity.
Qed.

(** One sample that is written and after it one whose species holds a lone
    surrogate. *)
Lemma X18_witness :
  fst (run (input_processing (fun _ => "") "" "" (Parsed (JObj example_params))
              (Parsed [ example_s1; refused_sample ]) (Parsed []))
           empty_world) = 1%Z.
Proof.
  refine (proj1 (@X18_refused_sample_stops_the_run (fun _ => "") "" ""
                   example_params "New York" [ example_s1 ] []
                   refused_sample "species" lone_surrogate
                   (Parsed []) empty_world eq_refl eq_refl _ _ _ eq_refl
                   eq_refl)).
  - repeat constructor.
  - repeat constructor.
  - left. reflexivity.
Defined.

(** ** The manifest across the two scripts *)






Lemma output_processing_cases (pd_read_csv : string -> option DataFrame)
    (file : option string) (w : world) :
  output_processing pd_read_csv file w
  = match read_model_output pd_read_csv file with
    | Ok df =>
        let written :=
          with_xlsx (mkWorkbook "Data" false df)
            (with_info_html
               (info_html w ++ [ html_line "Model Exports" "h3" ])%list w) in
        match attachments_json w with
        | Parsed (JArr manifest) =>
            (Ok tt,
             with_execution_log
               (execution_log w
                  ++ [ LogInfo "Model output processing successfully completed." ])%list
               (with_info_html
                  ((info_html w ++ [ html_line "Model Exports" "h3" ])
                     ++ [ html_line "Model exports successfully created." "p" ])%list
                  (with_attachments_json
                     (Parsed (JArr (manifest ++ [ spreadsheet_attachment ])%list))
                     written)))
        | Parsed _ => (Raise ValueError, written)
        | Missing => (Raise FileNotFoundError, written)
        | Unparseable => (Raise JSONDecodeError, written)
        end
    | Raise _ =>
        (Raise (SystemExit 1),
         with_execution_log
           (execution_log w
              ++ [ LogError
                     "SpeedGoatOutputMatrix.csv not found or could not be imported by Pandas." ])%list
           (with_info_html
              (((info_html w ++ [ html_line "Model Exports" "h3" ])
                  ++ [ html_line "ERROR" "h4" ])
                 ++ [ html_line
                        "SpeedGoatOutputMatrix.csv not found or could not be imported by Pandas."
                        "p" ])%list
              w))
    end.
Proof.
  unfold output_processing, read_model_output, sbind, except_Exception,
    add_item_to_json_file_list.
  destruct file as [text | ]; [ destruct (pd_read_csv text) | ];
    try reflexivity.
  cbn.
  destruct (attachments_json w) as [ | | [] ] eqn:Emanifest; cbn;
    rewrite ?Emanifest; reflexivity.
Qed.


(** X13: the output script only adds: whatever it reads, the three tables
    of the input script are left as they are, and the report and the log it
    finds are kept, its own lines and records coming after them. *)
Theorem X13_output_script_appends (pd_read_csv : string -> option DataFrame)
    (file : option string) (w : world) :
  let out := run (output_processing pd_read_csv file) w in
  params_csv (snd out) = params_csv w
  /\ sample_csv (snd out) = sample_csv w
  /\ sub_administrative_area_csv (snd out) = sub_administrative_area_csv w
  /\ (exists added,
        added <> [] /\ info_html (snd out) = (info_html w ++ added)%list)
  /\ (exists added,
        added <> [] /\ execution_log (snd out) = (execution_log w ++ added)%list).
Proof.
  cbv zeta. unfold run. rewrite output_processing_cases.
  destruct (read_model_output pd_read_csv file) as [df | e].
  - cbv zeta.
    destruct (attachments_json w) as [ | | [] ]; cbn;
      repeat (split; [ reflexivity | ]);
      (split;
       [ eexists; split; [ | rewrite <- ?app_assoc; reflexivity ]; discriminate
       | eexists; split; [ | reflexivity ]; discriminate ]).
  - cbn. repeat (split; [ reflexivity | ]).
    split.
    + eexists; split; [ | rewrite <- !app_assoc; reflexivity ]; discriminate.
    + eexists; split; [ | reflexivity ]; discriminate.
Qed.

(** ** Nothing of an earlier run in the report, the log or the manifest *)

Lemma uniform_ret {A : Type} (a : A) : uniform (ret a).
Proof. intros w w' H. split; [ reflexivity | exact H ]. Qed.

Lemma uniform_lift {A : Type} (r : result A) : uniform (lift r).
Proof. intros w w' H. split; [ reflexivity | exact H ]. Qed.

Lemma uniform_sbind {A B : Type} (m : script A) (k : A -> script B) :
  uniform m -> (forall a, uniform (k a)) -> uniform (sbind m k).
Proof.
  intros Hm Hk w w' Hsame. unfold sbind.
  destruct (Hm w w' Hsame) as [Hfst Hsnd].
  destruct (m w) as [[a | e] w1], (m w') as [[a' | e'] w1'];
    cbn [fst snd] in *; try discriminate.
  - inversion Hfst; subst. apply Hk. exact Hsnd.
  - inversion Hfst; subst. split; [ reflexivity | exact Hsnd ].
Qed.

Lemma uniform_model_log_html (line html_element : string) :
  uniform (model_log_html line html_element).
Proof.
  intros w w' [Hm [Hi Hl]]. split; [ reflexivity | ].
  repeat split; cbn; congruence.
Qed.

Lemma uniform_logging_info (message : string) : uniform (logging_info message).
Proof.
  intros w w' [Hm [Hi Hl]]. split; [ reflexivity | ].
  repeat split; cbn; congruence.
Qed.

Lemma uniform_logging_error (message : string) : uniform (logging_error message).
Proof.
  intros w w' [Hm [Hi Hl]]. split; [ reflexivity | ].
  repeat split; cbn; congruence.
Qed.

Lemma uniform_write (f : world -> world) :
  (forall w, same_channels w (f w)) -> uniform (modify f).
Proof.
  intros Hf w w' [Hm [Hi Hl]]. split; [ reflexivity | ].
  destruct (Hf w) as [Hm1 [Hi1 Hl1]], (Hf w') as [Hm2 [Hi2 Hl2]].
  repeat split; cbn; congruence.
Qed.

Lemma uniform_write_csv_file (store : table -> world -> world)
    (w : DictWriter) (rows : list dict) :
  (forall t w0, same_channels w0 (store t w0)) ->
  uniform (write_csv_file store w rows).
Proof.
  intros Hstore. unfold write_csv_file.
  apply uniform_sbind; [ apply uniform_lift | intros tbl ].
  apply uniform_sbind;
    [ apply uniform_write; intros w0; apply Hstore | intros _ ].
  destruct (snd (encode_rows tbl)); [ apply uniform_lift | apply uniform_ret ].
Qed.

Lemma uniform_model_log_html_text (line html_element : string) :
  uniform (model_log_html_text line html_element).
Proof.
  unfold model_log_html_text.
  destruct (utf8_encodable (html_line line html_element));
    [ apply uniform_model_log_html | apply uniform_lift ].
Qed.

Ltac uniform_steps :=
  repeat first
    [ apply uniform_write_csv_file; intros ? ?; repeat split
    | apply uniform_model_log_html_text
    | apply uniform_sbind; [ | intros ? ]
    | apply uniform_model_log_html
    | apply uniform_logging_info
    | apply uniform_logging_error
    | apply uniform_ret
    | apply uniform_lift
    | apply uniform_write; intros ?; repeat split ].

Lemma stages_uniform (py_str : json -> string)
    (params_json : file_state json)
    (sample_ndjson sub_administrative_area_ndjson : file_state (list dict)) :
  uniform
    (process_parameters py_str params_json ;;;
     process_samples py_str sample_ndjson ;;;
     process_subadmins sub_administrative_area_ndjson)%script.
Proof.
  unfold process_parameters, load_parameters, process_samples, load_samples,
    process_subadmins, load_subadmins, sys_exit.
  destruct params_json, sample_ndjson, sub_administrative_area_ndjson;
    uniform_steps.
Qed.

(** X14: the input script starts its report, its log and the manifest
    afresh: the status of a run and what these three hold at its end are
    the same whatever files an earlier run left behind. *)
Theorem X14_input_script_starts_afresh (py_str : json -> string)
    (now_html now_log : string) (params_json : file_state json)
    (sample_ndjson sub_administrative_area_ndjson : file_state (list dict))
    (w w' : world) :
  let out :=
    run (input_processing py_str now_html now_log params_json sample_ndjson
           sub_administrative_area_ndjson) w in
  let out' :=
    run (input_processing py_str now_html now_log params_json sample_ndjson
           sub_administrative_area_ndjson) w' in
  fst out = fst out'
  /\ attachments_json (snd out) = attachments_json (snd out')
  /\ info_html (snd out) = info_html (snd out')
  /\ execution_log (snd out) = execution_log (snd out').
Proof.
  cbv zeta.
  assert (Hstart : same_channels (snd (setup now_html now_log w))
                                 (snd (setup now_html now_log w')))
    by (repeat split).
  pose proof (stages_uniform py_str params_json sample_ndjson
                sub_administrative_area_ndjson Hstart) as [Hfst Hsnd].
  unfold run.
  change (input_processing py_str now_html now_log params_json sample_ndjson
            sub_administrative_area_ndjson w)
    with ((process_parameters py_str params_json ;;;
           process_samples py_str sample_ndjson ;;;
           process_subadmins sub_administrative_area_ndjson)%script
            (snd (setup now_html now_log w))).
  change (input_processing py_str now_html now_log params_json sample_ndjson
            sub_administrative_area_ndjson w')
    with ((process_parameters py_str params_json ;;;
           process_samples py_str sample_ndjson ;;;
           process_subadmins sub_administrative_area_ndjson)%script
            (snd (setup now_html now_log w'))).
  destruct ((process_parameters py_str params_json ;;;
             process_samples py_str sample_ndjson ;;;
             process_subadmins sub_administrative_area_ndjson)%script
              (snd (setup now_html now_log w))) as [[[] | e] w1];
    destruct ((process_parameters py_str params_json ;;;
               process_samples py_str sample_ndjson ;;;
               process_subadmins sub_administrative_area_ndjson)%script
                (snd (setup now_html now_log w'))) as [[[] | e'] w1'];
    cbn [fst snd] in *; try discriminate;
    destruct Hsnd as [Hm [Hi Hl]].
  - repeat split; assumption.
  - inversion Hfst; subst.
    destruct e'; cbn; repeat split; congruence.
Qed.

(** ** The formatting functions *)

Lemma json_dict_ind (P : json -> Prop) :
  (forall v, is_mapping v = false -> P v) ->
  (forall d, Forall (fun kv => P (snd kv)) d -> P (JObj d)) ->
  forall v, P v.
Proof.
  intros Hleaf Hobj. fix IH 1. intros v.
  destruct v; try (apply Hleaf; reflexivity).
  apply Hobj. revert members. fix IHd 1.
  intros [| [key v] rest]; constructor; [ apply IH | apply IHd ].
Qed.

Section FormattingProperties.

Variable py_str : json -> string.
Variable indent : nat.

Lemma format_value_items (key : string) (v : json) (rest : dict)
    (level : nat) :
  format_value py_str indent (JObj ((key, v) :: rest)) level
  = List.app
      match v with
      | JObj _ =>
          (spaces level ++ key ++ ":<br>")
          :: format_value py_str indent v (level + indent)
      | _ => [ spaces level ++ key ++ ": " ++ py_str v ++ "<br>" ]
      end
      (format_value py_str indent (JObj rest) level).
Proof. reflexivity. Qed.

Lemma key_entries_items (key : string) (v : json) (rest : dict)
    (depth : nat) :
  key_entries (JObj ((key, v) :: rest)) depth
  = List.app ((depth, key, v) :: key_entries v (S depth))
             (key_entries (JObj rest) depth).
Proof. reflexivity. Qed.

Lemma key_count_items (key : string) (v : json) (rest : dict) :
  key_count (JObj ((key, v) :: rest))
  = S (key_count v + key_count (JObj rest)).
Proof. reflexivity. Qed.

(** The lines of a value that sits [depth] levels down are the lines of its
    entries. *)
Lemma format_value_entries (level : nat) (value : json) :
  forall depth,
    format_value py_str indent value (level + depth * indent)
    = map (entry_line py_str indent level) (key_entries value depth).
Proof.
  induction value as [v Hleaf | d IHd] using json_dict_ind.
  - intros depth. destruct v; try discriminate; reflexivity.
  - induction d as [| [key v] rest IHrest]; intros depth.
    + reflexivity.
    + inversion IHd as [| ? ? Hv Hrest]; subst. cbn [snd] in Hv.
      rewrite format_value_items, key_entries_items, map_app, map_cons.
      rewrite (IHrest Hrest depth), <- (Hv (S depth)).
      replace (level + S depth * indent) with (level + depth * indent + indent)
        by (simpl; lia).
      destruct v; reflexivity.
Qed.

Lemma key_entries_count (value : json) :
  forall depth, List.length (key_entries value depth) = key_count value.
Proof.
  induction value as [v Hleaf | d IHd] using json_dict_ind.
  - intros depth. destruct v; try discriminate; reflexivity.
  - induction d as [| [key v] rest IHrest]; intros depth.
    + reflexivity.
    + inversion IHd as [| ? ? Hv Hrest]; subst. cbn [snd] in Hv.
      rewrite key_entries_items, key_count_items.
      cbn [List.length app]. rewrite length_app, Hv, (IHrest Hrest depth).
      reflexivity.
Qed.

Lemma key_entries_app (d more : dict) (depth : nat) :
  key_entries (JObj (d ++ more)%list) depth
  = (key_entries (JObj d) depth ++ key_entries (JObj more) depth)%list.
Proof.
  induction d as [| [key v] rest IH]; [ reflexivity | ].
  change (((key, v) :: rest) ++ more)%list with ((key, v) :: (rest ++ more))%list.
  rewrite !key_entries_items, IH, <- app_assoc. reflexivity.
Qed.

End FormattingProperties.

(** X15: the string [json_stringify_html] returns is the lines of the keys
    of the dictionary joined by line feeds, one line per key, the keys of
    nested dictionaries included, each right after its parent, and those
    inside lists not.  The line of a key nested [depth] dictionaries down
    is [indent + depth * indent] spaces, the key, and then a colon and a
    break for a dictionary, or a colon, a space, the value as Python prints
    it, and a break for anything else.  The keys of two dictionaries joined
    are those of the first followed by those of the second. *)
Theorem X15_stringify_entries (py_str : json -> string) (indent : nat)
    (data more : dict) :
  json_stringify_html py_str data indent
  = String.concat newline
      (map (entry_line py_str indent indent) (key_entries (JObj data) 0))
  /\ List.length (key_entries (JObj data) 0) = key_count (JObj data)
  /\ json_stringify_html py_str (data ++ more)%list indent
     = String.concat newline
         (map (entry_line py_str indent indent) (key_entries (JObj data) 0)
          ++ map (entry_line py_str indent indent)
               (key_entries (JObj more) 0))%list.
Proof.
  assert (Hlines : forall d,
             json_stringify_html py_str d indent
             = String.concat newline
                 (map (entry_line py_str indent indent)
                    (key_entries (JObj d) 0))).
  { intros d. unfold json_stringify_html, format_helper.
    rewrite <- (format_value_entries py_str indent indent (JObj d) 0).
    replace (indent + 0 * indent) with indent by (simpl; lia).
    reflexivity. }
  split; [ apply Hlines | ].
  split; [ apply key_entries_count | ].
  rewrite Hlines, key_entries_app, map_app. reflexivity.
Qed.

Section ListTypes.

Variable py_str : json -> string.

Lemma html_of_value_unordered (value : json) :
  html_of_value py_str "unordered" value = Ok (dict_to_html_value py_str value).
Proof.
  induction value as [v Hleaf | d IHd] using json_dict_ind.
  - destruct v; try discriminate; reflexivity.
  - cbn [html_of_value dict_to_html_value list_tags String.eqb Ascii.eqb
         Bool.eqb bind fst snd].
    assert (Hitems :
              (fix items (d0 : list (string * json)) : result string :=
                 match d0 with
                 | [] => Ok ""
                 | (key, v) :: rest =>
                     inner <- html_of_value py_str "unordered" v ;;
                     more <- items rest ;;
                     Ok ("<li>" ++ key ++ ": " ++ inner ++ "</li>" ++ more)
                 end) d
              = Ok ((fix items (d0 : list (string * json)) : string :=
                       match d0 with
                       | [] => ""
                       | (key, v) :: rest =>
                           "<li>" ++ key ++ ": " ++ dict_to_html_value py_str v
                           ++ "</li>" ++ items rest
                       end) d)).
    { induction d as [| [key v] rest IHrest]; [ reflexivity | ].
      inversion IHd as [| ? ? Hv Hrest]; subst. cbn [snd] in Hv.
      rewrite Hv. cbn [bind]. rewrite (IHrest Hrest). reflexivity. }
    rewrite Hitems. reflexivity.
Qed.

Lemma html_of_value_returns (list_type : string) (tags : string * string)
    (value : json) :
  list_tags list_type = Ok tags ->
  exists text, html_of_value py_str list_type value = Ok text.
Proof.
  intros Htags.
  induction value as [v Hleaf | d IHd] using json_dict_ind.
  - destruct v; try discriminate; eexists; reflexivity.
  - cbn [html_of_value]. rewrite Htags. cbn [bind].
    assert (Hitems :
              exists body,
                (fix items (d0 : list (string * json)) : result string :=
                   match d0 with
                   | [] => Ok ""
                   | (key, v) :: rest =>
                       inner <- html_of_value py_str list_type v ;;
                       more <- items rest ;;
                       Ok ("<li>" ++ key ++ ": " ++ inner ++ "</li>" ++ more)
                   end) d = Ok body).
    { induction d as [| [key v] rest IHrest]; [ eexists; reflexivity | ].
      inversion IHd as [| ? ? Hv Hrest]; subst. cbn [snd] in Hv.
      destruct Hv as [inner Hinner]. destruct (IHrest Hrest) as [more Hmore].
      rewrite Hinner. cbn [bind]. rewrite Hmore. eexists. reflexivity. }
    destruct Hitems as [body ->]. eexists. reflexivity.
Qed.

End ListTypes.

(** X16: [dict_to_html_list] returns for the list types "unordered" and
    "ordered" and raises [ValueError] for every other one, whatever the
    dictionary, the empty one included; with "unordered" its text is the one
    the script's own call writes to the report. *)
Theorem X16_list_type_decides (py_str : json -> string) (data : dict)
    (list_type : string) :
  dict_to_html_list_typed py_str data "unordered"
  = Ok (dict_to_html_list py_str data)
  /\ if String.eqb list_type "unordered" || String.eqb list_type "ordered"
     then exists text, dict_to_html_list_typed py_str data list_type = Ok text
     else dict_to_html_list_typed py_str data list_type = Raise ValueError.
Proof.
  split; [ apply html_of_value_unordered | ].
  unfold dict_to_html_list_typed.
  destruct (list_tags list_type) as [tags | e] eqn:Htags.
  - assert (Hvalid : String.eqb list_type "unordered"
                     || String.eqb list_type "ordered" = true).
    { unfold list_tags in Htags.
      destruct (String.eqb list_type "unordered"); [ reflexivity | ].
      destruct (String.eqb list_type "ordered"); [ reflexivity | discriminate ]. }
    rewrite Hvalid. eapply html_of_value_returns. eassumption.
  - assert (Hinvalid : String.eqb list_type "unordered"
                       || String.eqb list_type "ordered" = false).
    { unfold list_tags in Htags.
      destruct (String.eqb list_type "unordered"); [ discriminate | ].
      destruct (String.eqb list_type "ordered"); [ discriminate | reflexivity ]. }
    rewrite Hinvalid. cbn [html_of_value]. rewrite Htags.
    unfold list_tags in Htags.
    destruct (String.eqb list_type "unordered"); [ discriminate | ].
    destruct (String.eqb list_type "ordered"); [ discriminate | ].
    inversion Htags. reflexivity.
Qed.

(** ** Default values for any dictionary *)

Lemma dict_keys_set_absent (d : dict) (key : string) (value : json) :
  dict_has d key = false ->
  dict_keys (dict_set d key value) = (dict_keys d ++ [ key ])%list.
Proof.
  unfold dict_has, dict_keys.
  induction d as [| [k v] rest IH]; simpl; [ reflexivity | ].
  destruct (String.eqb k key); [ discriminate | ].
  intros H. simpl. rewrite (IH H). reflexivity.
Qed.

Lemma add_missing_defaults_keys (d defaults : dict) :
  exists added,
    dict_keys (add_missing_defaults_inplace d defaults)
    = (dict_keys d ++ added)%list
    /\ Forall (fun key => dict_has d key = false /\ In key (dict_keys defaults))
              added.
Proof.
  revert d.
  induction defaults as [| [k v] rest IH]; intros d; cbn [add_missing_defaults_inplace].
  - exists []. split; [ symmetry; apply app_nil_r | constructor ].
  - destruct (dict_has d k) eqn:Ek; cbn [negb].
    + destruct (IH d) as [added [Hkeys Hall]].
      exists added. split; [ exact Hkeys | ].
      eapply Forall_impl; [ | exact Hall ].
      intros key [Habs Hin]. split; [ exact Habs | right; exact Hin ].
    + destruct (IH (dict_set d k v)) as [added [Hkeys Hall]].
      exists (k :: added). split.
      * rewrite Hkeys, (dict_keys_set_absent _ _ v Ek), <- app_assoc. reflexivity.
      * constructor; [ split; [ exact Ek | left; reflexivity ] | ].
        eapply Forall_impl; [ | exact Hall ].
        intros key [Habs Hin]. split; [ | right; exact Hin ].
        unfold dict_has in *. rewrite dict_get_set in Habs.
        destruct (String.eqb k key); [ discriminate | exact Habs ].
Qed.

(** X17: for any dictionary of defaults, [add_missing_defaults_inplace]
    gives every key the original's value when the original has the key and
    the default otherwise; it keeps the original's keys in their order and
    puts the keys it adds, each a default the original lacked, after them;
    and applied a second time it changes nothing. *)
Theorem X17_defaults_fill_any_dictionary (original defaults : dict) :
  let filled := add_missing_defaults_inplace original defaults in
  (forall key,
     dict_get filled key
     = match dict_get original key with
       | Some v => Some v
       | None => dict_get defaults key
       end)
  /\ (exists added,
        dict_keys filled = (dict_keys original ++ added)%list
        /\ Forall (fun key => dict_has original key = false
                              /\ In key (dict_keys defaults)) added)
  /\ add_missing_defaults_inplace filled defaults = filled.
Proof.
  cbv zeta. split; [ intros key; apply dict_get_add_missing | ].
  split; [ apply add_missing_defaults_keys | ].
  apply add_missing_defaults_noop.
  apply Forall_forall. intros key Hin.
  unfold dict_has. rewrite dict_get_add_missing.
  destruct (dict_get original key); [ reflexivity | ].
  destruct (dict_get_of_key _ _ Hin) as [v ->]. reflexivity.
Qed.
